(** * MoneyThumb: transaction classification, fraud scoring and the
      statement pipeline

    A shallow embedding of [src/classifiers.py] and [src/core.py].

    Conventions of the embedding.
    - Descriptions are ASCII text, held as [string]; case mapping, white
      space and the regular-expression classes are the ASCII ones
      (characters above 127 have no case and are not white space).
    - [Decimal] values are finite: an integer coefficient and a power of
      ten.
    - Python [float] is IEEE 754 binary64, held as Rocq's primitive
      [float]; every operation the source performs on floats is performed
      on floats here.
    - A transaction is mutated in place by the classifier; here each
      function returns the updated record. *)

From Stdlib Require Import Bool Arith ZArith Lia List Permutation Ascii String.
From Stdlib Require Import Floats.
Import ListNotations.

Set Implicit Arguments.
Set Warnings "-inexact-float".

Local Open Scope string_scope.

(* ================================================================== *)
(** ** Python strings *)
(* ================================================================== *)

Module PyStr.

(** [c.upper()] on one ASCII character. *)
Definition upper_char (c : ascii) : ascii :=
  let n := nat_of_ascii c in
  if ((97 <=? n) && (n <=? 122))%nat then ascii_of_nat (n - 32) else c.

(** [c.lower()] on one ASCII character. *)
Definition lower_char (c : ascii) : ascii :=
  let n := nat_of_ascii c in
  if ((65 <=? n) && (n <=? 90))%nat then ascii_of_nat (n + 32) else c.

(** [s.upper()] *)
Fixpoint upper (s : string) : string :=
  match s with
  | EmptyString => EmptyString
  | String c s' => String (upper_char c) (upper s')
  end.

(** [s.startswith(p)] *)
Fixpoint startswith (p s : string) : bool :=
  match p, s with
  | EmptyString, _ => true
  | String _ _, EmptyString => false
  | String a p', String b s' => Ascii.eqb a b && startswith p' s'
  end.

(** [p in s]: [p] occurs in [s] as a contiguous substring. *)
Fixpoint contains (p s : string) : bool :=
  startswith p s ||
  match s with
  | EmptyString => false
  | String _ s' => contains p s'
  end.

(** [c.isspace()] for an ASCII character: TAB, LF, VT, FF, CR, the four
    separators 0x1C-0x1F and the space. The same set is what [split()],
    [strip()] and the regular-expression class [\s] use. *)
Definition isspace (c : ascii) : bool :=
  let n := nat_of_ascii c in
  (((9 <=? n) && (n <=? 13)) || ((28 <=? n) && (n <=? 32)))%nat.

(** Drop leading white space ([s.lstrip()]). *)
Fixpoint lstrip (s : string) : string :=
  match s with
  | EmptyString => EmptyString
  | String c s' => if isspace c then lstrip s' else s
  end.

(** Drop trailing white space ([s.rstrip()]). *)
Fixpoint rstrip (s : string) : string :=
  match s with
  | EmptyString => EmptyString
  | String c s' =>
      match rstrip s' with
      | EmptyString => if isspace c then EmptyString else String c EmptyString
      | r => String c r
      end
  end.

(** [s.strip()] *)
Definition strip (s : string) : string := rstrip (lstrip s).

(** [s.split()] with no separator: the maximal runs of characters that
    are not white space, in order. [word] is the run being read, most
    recent character first. *)
Fixpoint split_aux (word : list ascii) (s : string) : list string :=
  let flush := match word with
               | [] => []
               | _ :: _ => [string_of_list_ascii (rev word)]
               end in
  match s with
  | EmptyString => flush
  | String c s' =>
      if isspace c then flush ++ split_aux [] s'
      else split_aux (c :: word) s'
  end.

Definition split (s : string) : list string := split_aux [] s.

(** [sep.join(words)] *)
Fixpoint join (sep : string) (words : list string) : string :=
  match words with
  | [] => EmptyString
  | [w] => w
  | w :: ws => w ++ sep ++ join sep ws
  end.

End PyStr.

(* ================================================================== *)
(** ** Regular expressions: the fragment of [re] the classifier uses *)
(* ================================================================== *)

Module Re.

(** One-character matchers. *)
Inductive atom : Type :=
| Chr (c : ascii)                 (* a literal character *)
| Dot                             (* [.]: anything but a line feed *)
| Cls (p : ascii -> bool).        (* a bracketed class *)

(** A pattern is a sequence of items; [Open]/[Close] delimit group 1. *)
Inductive item : Type :=
| One (a : atom)
| Star (a : atom)                 (* greedy [a*] *)
| Plus (a : atom)                 (* greedy [a+] *)
| Open
| Close.

Definition pattern := list item.

(** Matching one character under [re.IGNORECASE]. *)
Definition atom_matches (a : atom) (c : ascii) : bool :=
  match a with
  | Chr x => Ascii.eqb (PyStr.lower_char x) (PyStr.lower_char c)
  | Dot => negb (Ascii.eqb c "010"%char)
  | Cls p => p c || p (PyStr.upper_char c) || p (PyStr.lower_char c)
  end.

(** The first [n] characters of [s]. *)
Fixpoint take (n : nat) (s : string) : string :=
  match n, s with
  | S n', String c s' => String c (take n' s')
  | _, _ => EmptyString
  end.

(** The text between the place where the group opened ([from]) and the
    current place ([to], a suffix of [from]). *)
Definition between (from to : string) : string :=
  take (String.length from - String.length to) from.

(** Greedy repetition of one atom: take the longest run of characters
    matching [a] first and give them back one by one until the rest of the
    pattern, [k], matches. *)
Fixpoint greedy (R : Type) (a : atom) (k : string -> option R) (s : string)
  : option R :=
  match s with
  | String c s' =>
      if atom_matches a c then
        match greedy a k s' with
        | Some r => Some r
        | None => k s
        end
      else k s
  | EmptyString => k s
  end.

(** Backtracking match of [pat] at the head of [s]. [opened] is the
    remaining text at the time group 1 opened, [grp] the text captured
    by group 1 so far. On success the result is group 1. *)
Fixpoint match_here (pat : pattern) (s : string)
         (opened : option string) (grp : option string)
  : option (option string) :=
  match pat with
  | [] => Some grp
  | One a :: pat' =>
      match s with
      | String c s' =>
          if atom_matches a c then match_here pat' s' opened grp else None
      | EmptyString => None
      end
  | Star a :: pat' =>
      greedy a (fun rest => match_here pat' rest opened grp) s
  | Plus a :: pat' =>
      match s with
      | String c s' =>
          if atom_matches a c
          then greedy a (fun rest => match_here pat' rest opened grp) s'
          else None
      | EmptyString => None
      end
  | Open :: pat' => match_here pat' s (Some s) grp
  | Close :: pat' =>
      match_here pat' s opened
        (match opened with
         | Some from => Some (between from s)
         | None => grp
         end)
  end.

(** [re.search(pat, s, re.IGNORECASE)]: the match at the leftmost
    starting place that has one; [None] when there is none. *)
Fixpoint search (pat : pattern) (s : string) : option (option string) :=
  match match_here pat s None None with
  | Some r => Some r
  | None =>
      match s with
      | String _ s' => search pat s'
      | EmptyString => None
      end
  end.

(** Building blocks for writing patterns. *)
Fixpoint lit (s : string) : pattern :=
  match s with
  | EmptyString => []
  | String c s' => One (Chr c) :: lit s'
  end.

Definition dotstar : pattern := [Star Dot].

Definition group (p : pattern) : pattern := Open :: (p ++ [Close])%list.

(** Concatenation of the pieces of a pattern. *)
Definition seq (ps : list pattern) : pattern := List.concat ps.

End Re.

(* ================================================================== *)
(** ** Data model *)
(* ================================================================== *)

(** A finite [decimal.Decimal]: the number [dec_coef * 10 ^ dec_exp]. *)
Record Decimal : Type := mkDecimal { dec_coef : Z; dec_exp : Z }.

(** [d < 0] and [d > 0] against the integer zero. *)
Definition dec_ltb0 (d : Decimal) : bool := (dec_coef d <? 0)%Z.
Definition dec_gtb0 (d : Decimal) : bool := (0 <? dec_coef d)%Z.

(** A [datetime.date]. *)
Record Date : Type := mkDate { year : Z; month : Z; day : Z }.

(** The enumerations of [models.py], as the classifier and the data model
    of the specification name their members. *)
Inductive TransactionType : Type := CREDIT | DEBIT.

Inductive TransactionCategory : Type :=
| TRUE_REVENUE
| NON_TRUE_REVENUE
| MCA_PAYMENT
| OPERATING_EXPENSE
| TRANSFER_OUT.

Definition category_eqb (a b : TransactionCategory) : bool :=
  match a, b with
  | TRUE_REVENUE, TRUE_REVENUE
  | NON_TRUE_REVENUE, NON_TRUE_REVENUE
  | MCA_PAYMENT, MCA_PAYMENT
  | OPERATING_EXPENSE, OPERATING_EXPENSE
  | TRANSFER_OUT, TRANSFER_OUT => true
  | _, _ => false
  end.

(** A transaction. The last four fields are the ones the classifier
    writes; a raw transaction may hold anything there. *)
Record Transaction : Type := mkTransaction {
  date : Date;
  description : string;
  amount : Decimal;
  balance : Decimal;
  transaction_type : TransactionType;
  category : option TransactionCategory;
  is_true_revenue : bool;
  is_mca_payment : bool;
  mca_lender : option string
}.

(** Field assignments [t.category = c] and the like. *)
Definition set_category (c : TransactionCategory) (t : Transaction) :=
  mkTransaction (date t) (description t) (amount t) (balance t)
    (transaction_type t) (Some c) (is_true_revenue t) (is_mca_payment t)
    (mca_lender t).

Definition set_is_true_revenue (b : bool) (t : Transaction) :=
  mkTransaction (date t) (description t) (amount t) (balance t)
    (transaction_type t) (category t) b (is_mca_payment t) (mca_lender t).

Definition set_is_mca_payment (b : bool) (t : Transaction) :=
  mkTransaction (date t) (description t) (amount t) (balance t)
    (transaction_type t) (category t) (is_true_revenue t) b (mca_lender t).

Definition set_mca_lender (l : option string) (t : Transaction) :=
  mkTransaction (date t) (description t) (amount t) (balance t)
    (transaction_type t) (category t) (is_true_revenue t) (is_mca_payment t)
    l.

(* ================================================================== *)
(** ** [TransactionClassifier] *)
(* ================================================================== *)

Module TransactionClassifier.

Import Re.

(** [self.credit_categories] *)
Definition true_revenue : list string :=
  [ "ACH Credit from customers";
    "Wire transfers from clients";
    "Check deposits from sales";
    "Credit card deposits";
    "Cash deposits";
    "PAYMENT";
    "DEPOSIT";
    "CREDIT CARD SETTLEMENT";
    "WIRE TRANSFER";
    "ACH CREDIT" ].

Definition non_true_revenue : list string :=
  [ "Online Transfer From";
    "Reversal";
    "Credit Return";
    "Book Transfer Credit";
    "Loan proceeds";
    "MCA deposits";
    "TRANSFER FROM";
    "RETURN ITEM";
    "LOAN DEPOSIT";
    "TAX REFUND";
    "INSURANCE CLAIM" ].

(** [self.debit_categories['mca_payments']['patterns']] *)
Definition mca_patterns : list pattern :=
  [ seq [dotstar; lit "MERCHANT"; dotstar; lit "CAPITAL"; dotstar];
    seq [dotstar; lit "BUSINESS"; dotstar; lit "ADVANCE"; dotstar];
    seq [dotstar; lit "DAILY"; dotstar; lit "ACH"; dotstar];
    seq [dotstar; lit "WORKING"; dotstar; lit "CAPITAL"; dotstar];
    seq [lit "Orig CO Name"; dotstar; lit "Financial"; dotstar];
    seq [dotstar; lit "FUNDING"; dotstar; lit "CIRCLE"; dotstar];
    seq [dotstar; lit "KABBAGE"; dotstar];
    seq [dotstar; lit "ONDECK"; dotstar];
    seq [dotstar; lit "FORWARD"; dotstar; lit "FINANCING"; dotstar];
    seq [dotstar; lit "RAPID"; dotstar; lit "ADVANCE"; dotstar] ].

Definition operating_expenses : list string :=
  [ "Payroll"; "Rent"; "Utilities"; "Supplies";
    "PAYROLL"; "SALARY"; "WAGE"; "RENT PAYMENT";
    "ELECTRIC"; "GAS"; "WATER"; "INTERNET" ].

Definition transfers_out : list string :=
  [ "Online Transfer To"; "Wire Transfer Out";
    "TRANSFER TO"; "WIRE OUT"; "BOOK TRANSFER" ].

(** [self.nsf_patterns] *)
Definition nsf_patterns : list string :=
  [ "NSF"; "Non-sufficient funds";
    "Overdraft"; "Return Item";
    "Insufficient Funds"; "OD Fee";
    "OVERDRAFT FEE"; "RETURNED ITEM";
    "INSUFFICIENT" ].

(** The loop [for pattern in table: if pattern.upper() in desc: ...]:
    does some entry of [table], uppercased, occur in [desc]? *)
Definition any_in (table : list string) (desc : string) : bool :=
  existsb (fun p => PyStr.contains (PyStr.upper p) desc) table.

(** The loop over regular expressions of [_classify_debit]. *)
Definition any_search (table : list pattern) (desc : string) : bool :=
  existsb (fun p => match search p desc with Some _ => true | None => false end)
          table.

(** The character classes of the last extraction pattern. *)
Definition colon_or_space (c : ascii) : bool :=
  Ascii.eqb c ":"%char || PyStr.isspace c.

Definition capital_or_space (c : ascii) : bool :=
  (let n := nat_of_ascii c in (65 <=? n)%nat && (n <=? 90)%nat)
  || PyStr.isspace c.

(** The [patterns] of [_extract_lender_name]. *)
Definition lender_patterns : list pattern :=
  [ group (seq [dotstar; lit "CAPITAL"; dotstar]);
    group (seq [dotstar; lit "FINANCIAL"; dotstar]);
    group (seq [dotstar; lit "FUNDING"; dotstar]);
    group (seq [dotstar; lit "ADVANCE"; dotstar]);
    seq [lit "Orig CO Name"; [Star (Cls colon_or_space)];
         group [Plus (Cls capital_or_space)]] ].

(** The loop of [_extract_lender_name]: the first pattern that matches
    gives [match.group(1).strip()]. Group 1 takes part in every match of
    these patterns ([lender_patterns_capture] below), so [group(1)] is a
    string whenever there is a match. *)
Fixpoint first_capture (table : list pattern) (description : string)
  : option (option string) :=
  match table with
  | [] => None
  | p :: table' =>
      match search p description with
      | Some m => Some (option_map PyStr.strip m)
      | None => first_capture table' description
      end
  end.

Definition _extract_lender_name (description : string) : option string :=
  match first_capture lender_patterns description with
  | Some r => r
  | None =>
      let words := firstn 3 (PyStr.split description) in
      match words with
      | [] => None
      | _ :: _ => Some (PyStr.join " " words)
      end
  end.

Definition _classify_credit (transaction : Transaction) (desc : string)
  : Transaction :=
  if any_in non_true_revenue desc then
    set_is_true_revenue false (set_category NON_TRUE_REVENUE transaction)
  else if any_in true_revenue desc then
    set_is_true_revenue true (set_category TRUE_REVENUE transaction)
  else
    set_is_true_revenue true (set_category TRUE_REVENUE transaction).

Definition _classify_debit (transaction : Transaction) (desc : string)
  : Transaction :=
  if any_search mca_patterns desc then
    set_mca_lender (_extract_lender_name desc)
      (set_is_mca_payment true (set_category MCA_PAYMENT transaction))
  else if any_in operating_expenses desc then
    set_category OPERATING_EXPENSE transaction
  else if any_in transfers_out desc then
    set_category TRANSFER_OUT transaction
  else
    set_category OPERATING_EXPENSE transaction.

Definition _is_nsf_transaction (transaction : Transaction) (desc : string)
  : bool :=
  if any_in nsf_patterns desc then true
  else if dec_ltb0 (balance transaction) then true
  else if PyStr.contains "RETURN" desc && dec_gtb0 (amount transaction)
       then true
  else false.

(** The first statement of [classify_transaction]: the credit or the
    debit branch, on the uppercased description. *)
Definition branch (transaction : Transaction) : Transaction :=
  let desc := PyStr.upper (description transaction) in
  match transaction_type transaction with
  | CREDIT => _classify_credit transaction desc
  | DEBIT => _classify_debit transaction desc
  end.

Definition classify_transaction (transaction : Transaction) : Transaction :=
  let desc := PyStr.upper (description transaction) in
  let transaction := branch transaction in
  if _is_nsf_transaction transaction desc
  then set_category NON_TRUE_REVENUE transaction
  else transaction.

(** Some entry of a keyword table, uppercased, occurs in [desc]. *)
Definition keyword_occurs (table : list string) (desc : string) : Prop :=
  exists p, In p table /\ PyStr.contains (PyStr.upper p) desc = true.

(** The three ways in which the NSF test succeeds. *)
Definition nsf_condition (t : Transaction) (desc : string) : Prop :=
  keyword_occurs nsf_patterns desc \/
  (dec_coef (balance t) < 0)%Z \/
  (PyStr.contains "RETURN" desc = true /\ (0 < dec_coef (amount t))%Z).

(** Does group 1 close in [pat]? [opened] tells whether it is open at the
    start of [pat]. *)
Fixpoint closes_group (opened : bool) (pat : pattern) : bool :=
  match pat with
  | [] => false
  | Open :: pat' => closes_group true pat'
  | Close :: pat' => opened || closes_group opened pat'
  | _ :: pat' => closes_group opened pat'
  end.

(** Does [pat] ask for a literal character that is not white space? *)
Definition asks_nonspace (pat : pattern) : bool :=
  existsb (fun it => match it with
                     | One (Chr x) => negb (PyStr.isspace x)
                     | _ => false
                     end) pat.

(** Does [s] hold a character that is not white space? *)
Fixpoint has_nonspace (s : string) : bool :=
  match s with
  | EmptyString => false
  | String c s' => negb (PyStr.isspace c) || has_nonspace s'
  end.

(** [c] occurs in [s]. *)
Fixpoint occurs (c : ascii) (s : string) : Prop :=
  match s with
  | EmptyString => False
  | String c' s' => c' = c \/ occurs c s'
  end.

End TransactionClassifier.

(* ================================================================== *)
(** ** Python numbers *)
(* ================================================================== *)

Module PyNum.

(** An integer as an exact binary number with exponent 0. *)
Definition Z2SF (z : Z) : spec_float :=
  match z with
  | Z0 => S754_zero false
  | Zpos p => S754_finite false p 0
  | Zneg p => S754_finite true p 0
  end.

(** The binary64 number nearest to the quotient [n / d] of two integers
    (ties to even). This is what [n / d] computes for Python integers, and
    what [float] computes for a decimal numeral [n / 10^k]. *)
Definition float_of_ratio (n d : Z) : float :=
  SF2Prim (SF64div (Z2SF n) (Z2SF d)).

(** [a / b] for Python integers, [b] not zero. *)
Definition true_div (a b : Z) : float := float_of_ratio a b.

(** [float(n)] for a Python integer. *)
Definition float_of_Z (n : Z) : float := float_of_ratio n 1.

(** [float(d)] for a finite [Decimal]: the nearest binary64 number. *)
Definition float_of_Decimal (d : Decimal) : float :=
  if (0 <=? dec_exp d)%Z
  then float_of_ratio (dec_coef d * 10 ^ dec_exp d) 1
  else float_of_ratio (dec_coef d) (10 ^ (- dec_exp d)).

(** C's [fmod]: the exact remainder of [x / y] with the sign of [x]. *)
Definition fmod (x y : float) : float :=
  match Prim2SF x, Prim2SF y with
  | S754_nan, _ | _, S754_nan => nan
  | S754_infinity _, _ => nan
  | _, S754_zero _ => nan
  | S754_zero _, _ => x
  | _, S754_infinity _ => x
  | S754_finite sx mx ex, S754_finite _ my ey =>
      let e := Z.min ex ey in
      let r := Z.rem (Zpos mx * 2 ^ (ex - e)) (Zpos my * 2 ^ (ey - e)) in
      SF2Prim (binary_normalize prec emax (cond_Zopp sx r) e sx)
  end.

(** [x % y] for Python floats, [y] not zero ([float_rem] of CPython): the
    [fmod] remainder, moved to the sign of [y]. *)
Definition float_mod (x y : float) : float :=
  let m := fmod x y in
  if negb (PrimFloat.eqb m 0) then
    if negb (Bool.eqb (PrimFloat.ltb y 0) (PrimFloat.ltb m 0))
    then (m + y)%float else m
  else if PrimFloat.ltb y 0 then neg_zero else zero.

(** [sum(xs)] for a list of floats: accumulation from the left, starting
    from the integer 0. (CPython from 3.12 on carries a compensation term;
    the two agree whenever the running sums are exact.) *)
Definition float_sum (xs : list float) : float :=
  fold_left PrimFloat.add xs 0%float.

(** [sum(xs)] for a list of floats in CPython from 3.12 on: the first
    element is added to the integer 0, then the running sum [f] carries
    a compensation [c] (Neumaier's variant of Kahan's summation), which
    is added at the end unless it is zero or not finite. *)
Definition compensated_step (st : float * float) (x : float) : float * float :=
  let '(f, c) := st in
  let t := (f + x)%float in
  let c' := if PrimFloat.leb (PrimFloat.abs x) (PrimFloat.abs f)
            then (c + ((f - t) + x))%float
            else (c + ((x - t) + f))%float in
  (t, c').

Definition compensated_sum (xs : list float) : float :=
  match xs with
  | [] => 0%float
  | x :: rest =>
      let '(f, c) := fold_left compensated_step rest ((0 + x)%float, 0%float) in
      if negb (PrimFloat.eqb c 0) && PrimFloat.ltb (PrimFloat.abs c) infinity
      then (f + c)%float else f
  end.

(** [min(a, b)] and [max(a, b)] on two floats: the first argument unless
    the second is strictly smaller (larger). *)
Definition min2 (a b : float) : float := if PrimFloat.ltb b a then b else a.
Definition max2 (a b : float) : float := if PrimFloat.ltb a b then b else a.

(** Numerical equality of decimals, the equality [Counter] and [dict] use
    for [Decimal] keys. *)
Definition dec_eqb (a b : Decimal) : bool :=
  let e := Z.min (dec_exp a) (dec_exp b) in
  (dec_coef a * 10 ^ (dec_exp a - e) =? dec_coef b * 10 ^ (dec_exp b - e))%Z.

(** [date.toordinal()] and [date.weekday()] as [datetime] computes them. *)
Definition _is_leap (y : Z) : bool :=
  ((y mod 4 =? 0) && (negb (y mod 100 =? 0) || (y mod 400 =? 0)))%Z.

Definition _days_before_year (y : Z) : Z :=
  let y := (y - 1)%Z in (y * 365 + y / 4 - y / 100 + y / 400)%Z.

Definition _DAYS_BEFORE_MONTH : list Z :=
  [-1; 0; 31; 59; 90; 120; 151; 181; 212; 243; 273; 304; 334]%Z.

Definition _days_before_month (y m : Z) : Z :=
  (nth (Z.to_nat m) _DAYS_BEFORE_MONTH 0
   + (if (2 <? m) && _is_leap y then 1 else 0))%Z.

Definition toordinal (d : Date) : Z :=
  (_days_before_year (year d) + _days_before_month (year d) (month d)
   + day d)%Z.

(** Monday is 0, Sunday is 6. *)
Definition weekday (d : Date) : Z := ((toordinal d + 6) mod 7)%Z.

End PyNum.

(* ================================================================== *)
(** ** [FraudDetector] *)
(* ================================================================== *)

Module FraudDetector.

Import PyNum.

Definition is_credit (t : Transaction) : bool :=
  match transaction_type t with CREDIT => true | DEBIT => false end.

(** [[t for t in transactions if t.transaction_type == TransactionType.CREDIT]] *)
Definition credits_of (transactions : list Transaction) : list Transaction :=
  filter is_credit transactions.

(** [len(l)] as a Python integer. *)
Definition len (A : Type) (l : list A) : Z := Z.of_nat (List.length l).

(** [float(t.amount) % 100 == 0] *)
Definition is_round_amount (t : Transaction) : bool :=
  PrimFloat.eqb (float_mod (float_of_Decimal (amount t)) (float_of_Z 100)) 0.

(** [sum(1 for t in l if p(t))] *)
Definition count_if (A : Type) (p : A -> bool) (l : list A) : Z :=
  fold_left (fun acc t => if p t then (acc + 1)%Z else acc) l 0%Z.

Definition _has_round_number_pattern (transactions : list Transaction) : bool :=
  let credits := credits_of transactions in
  if (len credits <? 10)%Z then false
  else
    let round_numbers := count_if is_round_amount credits in
    PrimFloat.ltb 0.3 (true_div round_numbers (len credits)).

(** [collections.Counter]: the keys in order of first appearance, each
    with the number of times it was seen. *)
Fixpoint counter_incr (k : Decimal) (c : list (Decimal * Z))
  : list (Decimal * Z) :=
  match c with
  | [] => [(k, 1%Z)]
  | (k', n) :: c' =>
      if dec_eqb k' k then (k', (n + 1)%Z) :: c'
      else (k', n) :: counter_incr k c'
  end.

Definition Counter (keys : list Decimal) : list (Decimal * Z) :=
  fold_left (fun c k => counter_incr k c) keys [].

Definition _has_identical_deposits (transactions : list Transaction) : bool :=
  let credits := credits_of transactions in
  let amounts := map amount credits in
  let amount_counts := Counter amounts in
  existsb (fun count => (5 <? count)%Z) (map snd amount_counts).

(** The loop of [_has_unusual_timing]: the pair
    [(weekend_deposits, total_deposits)]. *)
Definition timing_step (acc : Z * Z) (transaction : Transaction) : Z * Z :=
  let '(weekend_deposits, total_deposits) := acc in
  match transaction_type transaction with
  | CREDIT =>
      if (5 <=? weekday (date transaction))%Z
      then ((weekend_deposits + 1)%Z, (total_deposits + 1)%Z)
      else (weekend_deposits, (total_deposits + 1)%Z)
  | DEBIT => acc
  end.

Definition _has_unusual_timing (transactions : list Transaction) : bool :=
  let '(weekend_deposits, total_deposits) :=
    fold_left timing_step transactions (0%Z, 0%Z) in
  if (total_deposits =? 0)%Z then false
  else PrimFloat.ltb 0.2 (true_div weekend_deposits total_deposits).

Definition _has_pattern_breaks (transactions : list Transaction) : bool :=
  let credits := credits_of transactions in
  if (len credits <? 20)%Z then false
  else
    let amounts := map (fun t => float_of_Decimal (amount t)) credits in
    let avg_amount := (float_sum amounts / float_of_Z (len amounts))%float in
    existsb (fun amount => PrimFloat.ltb (avg_amount * float_of_Z 5) amount)
            amounts.

(** The labels appended to [factors]. *)
Definition label_round := "Round number deposits".
Definition label_identical := "Repeated identical amounts".
Definition label_timing := "Unusual deposit timing".
Definition label_pattern := "Inconsistent patterns".

(** One [if check: score += points; factors.append(label)] statement. *)
Definition add_factor (check : bool) (points : Z) (label : string)
           (st : Z * list string) : Z * list string :=
  if check then ((fst st + points)%Z, (snd st ++ [label])%list) else st.

Definition calculate_thumbprint_score (transactions : list Transaction)
  : Z * list string :=
  let st := (0%Z, []) in
  let st := add_factor (_has_round_number_pattern transactions) 150 label_round st in
  let st := add_factor (_has_identical_deposits transactions) 200 label_identical st in
  let st := add_factor (_has_unusual_timing transactions) 100 label_timing st in
  let st := add_factor (_has_pattern_breaks transactions) 100 label_pattern st in
  (Z.min (fst st) 1000, snd st).

End FraudDetector.

(* ================================================================== *)
(** ** The scorer for any summation of floats *)
(* ================================================================== *)

(** The builtin [sum] adds floats from the left in CPython before 3.12
    ([PyNum.float_sum]) and carries a compensation term from 3.12 on
    ([PyNum.compensated_sum]). Here the scorer is written over the
    summation it is run with; the scorer above is the instance at
    [PyNum.float_sum]. *)
Module FraudDetectorSum.

Import PyNum FraudDetector.

Section Sum.

Variable py_sum : list float -> float.

Definition _has_pattern_breaks_with (transactions : list Transaction) : bool :=
  let credits := credits_of transactions in
  if (len credits <? 20)%Z then false
  else
    let amounts := map (fun t => float_of_Decimal (amount t)) credits in
    let avg_amount := (py_sum amounts / float_of_Z (len amounts))%float in
    existsb (fun amount => PrimFloat.ltb (avg_amount * float_of_Z 5) amount)
            amounts.

Definition calculate_thumbprint_score_with (transactions : list Transaction)
  : Z * list string :=
  let st := (0%Z, []) in
  let st := add_factor (_has_round_number_pattern transactions) 150 label_round st in
  let st := add_factor (_has_identical_deposits transactions) 200 label_identical st in
  let st := add_factor (_has_unusual_timing transactions) 100 label_timing st in
  let st := add_factor (_has_pattern_breaks_with transactions) 100 label_pattern st in
  (Z.min (fst st) 1000, snd st).

End Sum.

End FraudDetectorSum.

(* ================================================================== *)
(** ** The remaining records of the data model *)
(* ================================================================== *)

Record BankAccount : Type := mkBankAccount {
  bank_name : string;
  account_number : string;
  statement_start : Date;
  statement_end : Date
}.

Record MCAPosition : Type := mkMCAPosition {
  lender_name : string;
  daily_payment : Decimal;
  position_number : Z
}.

Record MonthlyStats : Type := mkMonthlyStats {
  stats_month : string;
  total_deposits : Decimal;
  true_revenue : Decimal;
  ending_balance : Decimal;
  days_negative : Z
}.

Record UnderwritingMetrics : Type := mkUnderwritingMetrics {
  average_monthly_revenue : Decimal;
  revenue_stability : float;
  days_cash_on_hand : float;
  mca_payment_ratio : float;
  deposit_frequency : float;
  nsf_rate : float;
  negative_day_rate : float;
  fraud_score : Z
}.

Record CashFlowMetrics : Type := mkCashFlowMetrics {
  gross_cash_in : Decimal;
  gross_cash_out : Decimal;
  net_cash_flow : Decimal;
  true_cash_flow : Decimal;
  mca_burden : Decimal;
  free_cash_flow : Decimal
}.

Record MoneyThumbResponse : Type := mkMoneyThumbResponse {
  account : BankAccount;
  transactions : list Transaction;
  monthly_summaries : list MonthlyStats;
  mca_positions : list MCAPosition;
  metrics : UnderwritingMetrics;
  cash_flow : CashFlowMetrics;
  confidence_score : float;
  processing_time : float
}.

(** [metrics.fraud_score = fraud_score] *)
Definition set_fraud_score (s : Z) (m : UnderwritingMetrics) :=
  mkUnderwritingMetrics (average_monthly_revenue m) (revenue_stability m)
    (days_cash_on_hand m) (mca_payment_ratio m) (deposit_frequency m)
    (nsf_rate m) (negative_day_rate m) s.

(** The dictionary [process_statement] of the OCR engine returns. *)
Record OCRResult : Type := mkOCRResult {
  ocr_account : BankAccount;
  ocr_transactions : list Transaction;
  ocr_confidence_score : float
}.

(** The dictionary [month_data] handed to the cash-flow analyzer. *)
Record MonthData : Type := mkMonthData {
  all_deposits : list Decimal;
  all_withdrawals : list Decimal;
  md_true_revenue : Decimal;
  md_operating_expenses : Decimal;
  mca_payments : list Decimal
}.

(* ================================================================== *)
(** ** [MoneyThumbSystem] *)
(* ================================================================== *)

(** The components the controller calls, in the order of its stages. *)
Inductive Call : Type :=
| CallOCR
| CallClassify
| CallDetectPositions
| CallMonthlyStats
| CallMetrics
| CallFraudScore
| CallCashflow
| CallConfidence.

(** A computation that records the calls it makes. *)
Definition Traced (A : Type) : Type := (list Call * A)%type.

Definition ret (A : Type) (a : A) : Traced A := ([], a).

Definition bind (A B : Type) (m : Traced A) (k : A -> Traced B) : Traced B :=
  let '(l1, a) := m in
  let '(l2, b) := k a in
  ((l1 ++ l2)%list, b).

Definition call (A : Type) (c : Call) (a : A) : Traced A := ([c], a).

Notation "x <- m ;; k" := (bind m (fun x => k))
  (at level 61, m at next level, right associativity).

(** [for x in xs: ys.append(f(x))] for a traced [f]. *)
Fixpoint for_each (A B : Type) (f : A -> Traced B) (xs : list A)
  : Traced (list B) :=
  match xs with
  | [] => ret []
  | x :: xs' =>
      y <- f x ;;
      ys <- for_each f xs' ;;
      ret (y :: ys)
  end.

Module MoneyThumbSystem.

Import PyNum.

(** Exact sum and product of decimals (the results of [Decimal] arithmetic
    as long as they fit the precision of the decimal context). *)
Definition dec_add (a b : Decimal) : Decimal :=
  let e := Z.min (dec_exp a) (dec_exp b) in
  mkDecimal (dec_coef a * 10 ^ (dec_exp a - e)
             + dec_coef b * 10 ^ (dec_exp b - e)) e.

Definition dec_mul (a b : Decimal) : Decimal :=
  mkDecimal (dec_coef a * dec_coef b) (dec_exp a + dec_exp b).

Definition dec_sum (l : list Decimal) : Decimal :=
  fold_left dec_add l (mkDecimal 0 0).

(** Two decimal digits of [n], and the key [strftime('%Y-%m')] of a date
    (years of four digits). *)
Definition digit (n : Z) : ascii := ascii_of_nat (48 + Z.to_nat (n mod 10)).

Definition month_key (d : Date) : string :=
  let y := year d in
  String (digit (y / 1000)) (String (digit (y / 100)) (String (digit (y / 10))
  (String (digit y) (String "-"%char (String (digit (month d / 10))
  (String (digit (month d)) EmptyString)))))).

(** [sorted(set(keys))] *)
Fixpoint insert_sorted (k : string) (l : list string) : list string :=
  match l with
  | [] => [k]
  | k' :: l' =>
      match String.compare k k' with
      | Lt => k :: l
      | Eq => l
      | Gt => k' :: insert_sorted k l'
      end
  end.

Definition sorted_set (keys : list string) : list string :=
  fold_left (fun acc k => insert_sorted k acc) keys [].

(** The categories present: [set(t.category for t in transactions if t.category)] *)
Definition category_eq_dec (a b : TransactionCategory) : {a = b} + {a <> b}.
Proof. decide equality. Defined.

Definition categories_present (transactions : list Transaction)
  : list TransactionCategory :=
  flat_map (fun t => match category t with Some c => [c] | None => [] end)
           transactions.

Definition transaction_types (transactions : list Transaction)
  : list TransactionCategory :=
  nodup category_eq_dec (categories_present transactions).

Definition _calculate_final_confidence (base_confidence : float)
           (transactions : list Transaction) (fraud_score : Z) : float :=
  let confidence := base_confidence in
  let confidence :=
    if (500 <? fraud_score)%Z then (confidence - 0.3)%float
    else if (200 <? fraud_score)%Z then (confidence - 0.1)%float
    else confidence in
  let confidence :=
    if (FraudDetector.len transactions <? 20)%Z then (confidence - 0.2)%float
    else confidence in
  let confidence :=
    if (3 <=? FraudDetector.len (transaction_types transactions))%Z
    then (confidence + 0.1)%float
    else confidence in
  max2 0 (min2 1 confidence).

Definition _empty_response (account : BankAccount) (processing_time : float)
  : MoneyThumbResponse :=
  let empty_metrics :=
    mkUnderwritingMetrics (mkDecimal 0 0) 0 0 0 0 0 0 0 in
  let empty_cashflow :=
    mkCashFlowMetrics (mkDecimal 0 0) (mkDecimal 0 0) (mkDecimal 0 0)
      (mkDecimal 0 0) (mkDecimal 0 0) (mkDecimal 0 0) in
  mkMoneyThumbResponse account [] [] [] empty_metrics empty_cashflow 0
    processing_time.

Section Pipeline.

(** The collaborators of the controller, whose code is outside the core. *)
Variable process_statement : string -> OCRResult.
Variable detect_positions : list Transaction -> list MCAPosition.
Variable calculate_monthly_stats : list Transaction -> string -> MonthlyStats.
Variable calculate_metrics :
  list MonthlyStats -> list Transaction -> list MCAPosition -> UnderwritingMetrics.
Variable analyze_monthly_cashflow : option MonthData -> CashFlowMetrics.

(** The two readings of the clock: at entry, and when the response is
    built. *)
Variable start_time end_time : float.

Definition _calculate_monthly_summaries (transactions : list Transaction)
  : Traced (list MonthlyStats) :=
  match transactions with
  | [] => ret []
  | _ :: _ =>
      let months := sorted_set (map (fun t => month_key (date t)) transactions) in
      for_each (fun month =>
                  call CallMonthlyStats
                       (calculate_monthly_stats transactions month))
               months
  end.

Definition _calculate_overall_cashflow (monthly_summaries : list MonthlyStats)
           (mca_positions : list MCAPosition) : Traced CashFlowMetrics :=
  match monthly_summaries with
  | [] => call CallCashflow (analyze_monthly_cashflow None)
  | _ :: _ =>
      let total_deposits := dec_sum (map total_deposits monthly_summaries) in
      let total_true_revenue := dec_sum (map true_revenue monthly_summaries) in
      let operating_expenses := dec_mul total_true_revenue (mkDecimal 7 (-1)) in
      let monthly_mca_payments :=
        map (fun position => dec_mul (daily_payment position) (mkDecimal 20 0))
            mca_positions in
      let month_data :=
        mkMonthData [total_deposits] [operating_expenses] total_true_revenue
                    operating_expenses monthly_mca_payments in
      call CallCashflow (analyze_monthly_cashflow (Some month_data))
  end.

Definition process_bank_statement (pdf_path : string)
  : Traced MoneyThumbResponse :=
  ocr_result <- call CallOCR (process_statement pdf_path) ;;
  let account := ocr_account ocr_result in
  let raw_transactions := ocr_transactions ocr_result in
  let base_confidence := ocr_confidence_score ocr_result in
  match raw_transactions with
  | [] => ret (_empty_response account (end_time - start_time)%float)
  | _ :: _ =>
      classified_transactions <-
        for_each (fun transaction =>
                    call CallClassify
                         (TransactionClassifier.classify_transaction transaction))
                 raw_transactions ;;
      mca_positions <-
        call CallDetectPositions (detect_positions classified_transactions) ;;
      monthly_summaries <- _calculate_monthly_summaries classified_transactions ;;
      metrics <-
        call CallMetrics
             (calculate_metrics monthly_summaries classified_transactions
                                mca_positions) ;;
      score <-
        call CallFraudScore
             (FraudDetector.calculate_thumbprint_score classified_transactions) ;;
      let '(fraud_score, fraud_factors) := score in
      let metrics := set_fraud_score fraud_score metrics in
      cash_flow <- _calculate_overall_cashflow monthly_summaries mca_positions ;;
      final_confidence <-
        call CallConfidence
             (_calculate_final_confidence base_confidence
                                          classified_transactions fraud_score) ;;
      ret (mkMoneyThumbResponse account classified_transactions
             monthly_summaries mca_positions metrics cash_flow
             final_confidence (end_time - start_time)%float)
  end.

End Pipeline.

End MoneyThumbSystem.

(* ================================================================== *)
(** ** The fraud checks in closed form, in binary64 arithmetic *)
(* ================================================================== *)

Module FraudSpec.

Import PyNum FraudDetector.

(** How many elements of [l] satisfy [p]. *)
Definition count (A : Type) (p : A -> bool) (l : list A) : Z :=
  Z.of_nat (List.length (filter p l)).

(** The date falls on a Saturday or a Sunday. *)
Definition on_weekend (t : Transaction) : bool :=
  (5 <=? weekday (date t))%Z.

(** [float(amount) % 100 == 0]: the binary64 number nearest to the amount
    leaves the remainder 0 when divided by 100. *)
Definition float_remainder_100_is_zero (t : Transaction) : bool :=
  PrimFloat.eqb (float_mod (float_of_Decimal (amount t)) 100) 0.

(** The mean of the credit amounts in binary64: the sum of the amounts
    converted to binary64, by the summation [py_sum], divided by their
    number. *)
Definition binary64_mean (py_sum : list float -> float)
           (credits : list Transaction) : float :=
  (py_sum (map (fun t => float_of_Decimal (amount t)) credits)
   / float_of_Z (len credits))%float.

(** Round-number pattern in binary64: at least 10 credits, and the
    binary64 quotient of the number of credits with
    [float(amount) % 100 == 0] by the number of credits exceeds the
    binary64 number 0.3. *)
Definition binary64_round_check (transactions : list Transaction) : bool :=
  let credits := credits_of transactions in
  (10 <=? len credits)%Z &&
  PrimFloat.ltb 0.3 (true_div (count float_remainder_100_is_zero credits)
                              (len credits)).

(** Identical deposits: the amount of some credit recurs more than 5
    times among the credits. *)
Definition identical_check (transactions : list Transaction) : bool :=
  let amounts := map amount (credits_of transactions) in
  existsb (fun a => (5 <? count (dec_eqb a) amounts)%Z) amounts.

(** Unusual timing: there is a credit, and the binary64 quotient of the
    number of credits dated on a weekend by the number of credits exceeds
    the binary64 number 0.2. *)
Definition timing_check (transactions : list Transaction) : bool :=
  let credits := credits_of transactions in
  negb (len credits =? 0)%Z &&
  PrimFloat.ltb 0.2 (true_div (count on_weekend credits) (len credits)).

(** Pattern break in binary64: at least 20 credits, and the amount of
    some credit, converted to binary64, exceeds the binary64 product of
    the binary64 mean by 5. *)
Definition binary64_pattern_check (py_sum : list float -> float)
           (transactions : list Transaction) : bool :=
  let credits := credits_of transactions in
  (20 <=? len credits)%Z &&
  existsb (fun t => PrimFloat.ltb (binary64_mean py_sum credits * 5)
                                  (float_of_Decimal (amount t)))
          credits.

(** The contribution of a check. *)
Definition contribution (triggered : bool) (points : Z) : Z :=
  if triggered then points else 0%Z.

(** The label of a check, if it triggered. *)
Definition factor (triggered : bool) (label : string) : list string :=
  if triggered then [label] else [].

(** The points that go with a label. *)
Definition points_of (label : string) : Z :=
  if String.eqb label label_round then 150
  else if String.eqb label label_identical then 200
  else if String.eqb label label_timing then 100
  else if String.eqb label label_pattern then 100
  else 0.

Definition total_points (factors : list string) : Z :=
  fold_right (fun label acc => (points_of label + acc)%Z) 0%Z factors.

(** The keys of a counter are pairwise different numbers. *)
Fixpoint distinct_keys (ks : list Decimal) : Prop :=
  match ks with
  | [] => True
  | k :: ks' => (forall k', In k' ks' -> dec_eqb k k' = false) /\ distinct_keys ks'
  end.

(** What the counter [c] holds once the keys [seen] were counted: its keys
    are pairwise different, each comes from [seen] with the number of its
    occurrences there, and each element of [seen] has its key. *)
Definition counts (c : list (Decimal * Z)) (seen : list Decimal) : Prop :=
  distinct_keys (map fst c) /\
  (forall k n, In (k, n) c -> n = count (dec_eqb k) seen /\ In k seen) /\
  (forall x, In x seen -> exists k, In k (map fst c) /\ dec_eqb k x = true).

End FraudSpec.

(* ================================================================== *)
(** ** The fraud checks in exact arithmetic *)
(* ================================================================== *)

(** The checks read with exact decimal and rational arithmetic: an amount
    is a multiple of 100 as a decimal number, fractions are compared as
    rationals, and the mean is the exact mean. *)
Module ExactSpec.

Import PyNum FraudDetector FraudSpec.

(** The decimal [d] is an integer multiple of 100. *)
Definition dec_multiple_of_100 (d : Decimal) : bool :=
  if (0 <=? dec_exp d)%Z
  then ((dec_coef d * 10 ^ dec_exp d) mod 100 =? 0)%Z
  else (dec_coef d mod (100 * 10 ^ (- dec_exp d)) =? 0)%Z.

(** The least exponent of a list of decimals, and a decimal as an
    integer number of units [10 ^ e]. *)
Definition least_exp (l : list Decimal) : Z :=
  fold_right (fun d e => Z.min (dec_exp d) e) 0%Z l.

Definition in_units (e : Z) (d : Decimal) : Z :=
  (dec_coef d * 10 ^ (dec_exp d - e))%Z.

(** The [n] amounts of [c], [c + 1], ... cents. *)
Fixpoint cents (n : nat) (c : Z) : list Decimal :=
  match n with
  | O => []
  | S n' => mkDecimal c (-2) :: cents n' (c + 1)
  end.

(** [r / n > 3 / 10] *)
Definition exact_round_check (transactions : list Transaction) : bool :=
  let credits := credits_of transactions in
  (10 <=? len credits)%Z &&
  (3 * len credits
   <? 10 * count (fun t => dec_multiple_of_100 (amount t)) credits)%Z.

(** [w / n > 1 / 5], with a credit at least. *)
Definition exact_timing_check (transactions : list Transaction) : bool :=
  let credits := credits_of transactions in
  negb (len credits =? 0)%Z &&
  (len credits <? 5 * count on_weekend credits)%Z.

(** [a > 5 * (total / n)] for some credit amount [a], that is
    [n * a > 5 * total]. *)
Definition exact_pattern_check (transactions : list Transaction) : bool :=
  let amounts := map amount (credits_of transactions) in
  let e := least_exp amounts in
  let units := map (in_units e) amounts in
  let total := fold_right Z.add 0%Z units in
  (20 <=? len amounts)%Z &&
  existsb (fun a => (5 * total <? len amounts * a)%Z) units.

(** The score and the factors under the exact reading. *)
Definition exact_score (transactions : list Transaction) : Z * list string :=
  let r := exact_round_check transactions in
  let i := identical_check transactions in
  let u := exact_timing_check transactions in
  let b := exact_pattern_check transactions in
  (Z.min (contribution r 150 + contribution i 200
          + contribution u 100 + contribution b 100) 1000,
   (factor r label_round ++ factor i label_identical
    ++ factor u label_timing ++ factor b label_pattern)%list).

End ExactSpec.

(* ================================================================== *)
(** ** The confidence blend, as the specification words it *)
(* ================================================================== *)

Module ConfidenceSpec.

Import PyNum.

Definition all_categories : list TransactionCategory :=
  [TRUE_REVENUE; NON_TRUE_REVENUE; MCA_PAYMENT; OPERATING_EXPENSE;
   TRANSFER_OUT].

(** Some transaction of the list has category [c]. *)
Definition category_present (transactions : list Transaction)
           (c : TransactionCategory) : bool :=
  existsb (fun t => match category t with
                    | Some c' => category_eqb c c'
                    | None => false
                    end) transactions.

(** The number of distinct categories, nulls left out, that are present. *)
Definition distinct_categories (transactions : list Transaction) : Z :=
  FraudSpec.count (category_present transactions) all_categories.

(** The base confidence after the three adjustments, before clamping. *)
Definition adjusted_confidence (base_confidence : float)
           (transactions : list Transaction) (fraud_score : Z) : float :=
  let after_fraud :=
    if (500 <? fraud_score)%Z then (base_confidence - 0.3)%float
    else if (200 <? fraud_score)%Z then (base_confidence - 0.1)%float
    else base_confidence in
  let after_count :=
    if (Z.of_nat (List.length transactions) <? 20)%Z
    then (after_fraud - 0.2)%float else after_fraud in
  if (3 <=? distinct_categories transactions)%Z
  then (after_count + 0.1)%float else after_count.

End ConfidenceSpec.

(* ================================================================== *)
(** ** [generate_json_report] *)
(* ================================================================== *)

Module JsonReport.

Import PyNum.

(** [s.split(sep)] for a separator of one character: the pieces between
    the separators, at least one. *)
Fixpoint split_on (sep : ascii) (s : string) : list string :=
  match s with
  | EmptyString => [EmptyString]
  | String c s' =>
      if Ascii.eqb c sep then EmptyString :: split_on sep s'
      else match split_on sep s' with
           | piece :: pieces => String c piece :: pieces
           | [] => [String c EmptyString]
           end
  end.

(** [date.isoformat()]: [YYYY-MM-DD]. *)
Definition isoformat (d : Date) : string :=
  let dg := MoneyThumbSystem.digit in
  String (dg (year d / 1000)%Z) (String (dg (year d / 100)%Z)
  (String (dg (year d / 10)%Z) (String (dg (year d))
  (String "-"%char (String (dg (month d / 10)%Z) (String (dg (month d))
  (String "-"%char (String (dg (day d / 10)%Z) (String (dg (day d))
  EmptyString))))))))).

(** The entries of the lists of the report. *)
Record PositionEntry : Type := mkPositionEntry {
  entry_lender : string;
  entry_daily_payment : float;
  entry_position : Z
}.

Record MonthEntry : Type := mkMonthEntry {
  entry_month : string;
  entry_true_revenue : float;
  entry_gross_deposits : float;
  entry_ending_balance : float;
  entry_days_negative : Z
}.

(** The dictionary [generate_json_report] returns, key by key. *)
Record Report : Type := mkReport {
  report_bank : string;
  report_account_last4 : string;
  report_period_start : string;
  report_period_end : string;
  report_average_monthly_revenue : float;
  report_true_revenue_total : float;
  report_gross_deposits : float;
  report_mca_positions_detected : Z;
  report_total_mca_payments : float;
  report_days_negative : Z;
  report_nsf_count : Z;
  report_fraud_score : Z;
  report_mca_positions : list PositionEntry;
  report_monthly_summary : list MonthEntry;
  report_confidence_score : float;
  report_processing_time : float
}.

(** ['NSF' in t.description.upper()] *)
Definition mentions_nsf (t : Transaction) : bool :=
  PyStr.contains "NSF" (PyStr.upper (description t)).

Definition generate_json_report (response : MoneyThumbResponse) : Report :=
  mkReport
    (bank_name (account response))
    (last (split_on "*"%char (account_number (account response))) EmptyString)
    (isoformat (statement_start (account response)))
    (isoformat (statement_end (account response)))
    (float_of_Decimal (average_monthly_revenue (metrics response)))
    (float_of_Decimal
       (MoneyThumbSystem.dec_sum
          (map true_revenue (monthly_summaries response))))
    (float_of_Decimal
       (MoneyThumbSystem.dec_sum
          (map total_deposits (monthly_summaries response))))
    (FraudDetector.len (mca_positions response))
    (float_of_Decimal
       (MoneyThumbSystem.dec_sum
          (map (fun pos => MoneyThumbSystem.dec_mul (daily_payment pos)
                                                    (mkDecimal 20 0))
               (mca_positions response))))
    (fold_left Z.add (map days_negative (monthly_summaries response)) 0%Z)
    (FraudDetector.len (filter mentions_nsf (transactions response)))
    (fraud_score (metrics response))
    (map (fun pos => mkPositionEntry (lender_name pos)
                       (float_of_Decimal (daily_payment pos))
                       (position_number pos))
         (mca_positions response))
    (map (fun m => mkMonthEntry (stats_month m)
                     (float_of_Decimal (true_revenue m))
                     (float_of_Decimal (total_deposits m))
                     (float_of_Decimal (ending_balance m))
                     (days_negative m))
         (monthly_summaries response))
    (confidence_score response)
    (processing_time response).

End JsonReport.

(* ================================================================== *)
(** ** Notions used to state what the code guarantees *)
(* ================================================================== *)

Module Notions.

(** [s] has no line feed. *)
Fixpoint single_line (s : string) : bool :=
  match s with
  | EmptyString => true
  | String c s' => negb (Ascii.eqb c "010"%char) && single_line s'
  end.

(** [p] is a prefix of [s] up to the case of letters. *)
Fixpoint istartswith (p s : string) : bool :=
  match p, s with
  | EmptyString, _ => true
  | String _ _, EmptyString => false
  | String a p', String b s' =>
      Ascii.eqb (PyStr.lower_char a) (PyStr.lower_char b) && istartswith p' s'
  end.

(** [p] occurs in [s] up to the case of letters. *)
Fixpoint icontains (p s : string) : bool :=
  istartswith p s ||
  match s with
  | EmptyString => false
  | String _ s' => icontains p s'
  end.

(** [s] without its first [n] characters. *)
Fixpoint skip (n : nat) (s : string) : string :=
  match n, s with
  | S n', String _ s' => skip n' s'
  | _, _ => s
  end.

(** [t] is a tail of [s]. *)
Fixpoint is_tail (t s : string) : Prop :=
  t = s \/ match s with
           | EmptyString => False
           | String _ s' => is_tail t s'
           end.

(** The first and the last character of a text are not white space. *)
Definition trimmed (s : string) : Prop :=
  PyStr.lstrip s = s /\ PyStr.rstrip s = s.

(** A list of keys in strictly ascending order. *)
Fixpoint ascending (keys : list string) : Prop :=
  match keys with
  | [] => True
  | k :: keys' =>
      (forall k', In k' keys' -> String.compare k k' = Lt) /\ ascending keys'
  end.

(** [n] copies of a call. *)
Definition calls (c : Call) (n : nat) : list Call := repeat c n.

(** The transactions of category [c]. *)
Definition has_category (c : TransactionCategory) (t : Transaction) : bool :=
  match category t with
  | Some c' => category_eqb c c'
  | None => false
  end.

End Notions.

(* ================================================================== *)
(** ** Sample data *)
(* ================================================================== *)

Module Samples.

(** A raw transaction as the OCR engine hands it over: nothing classified
    yet. Amounts and balances are given in cents. *)
Definition raw (ty : TransactionType) (desc : string) (amount_cents balance_cents : Z)
  : Transaction :=
  mkTransaction (mkDate 2024 1 15) desc (mkDecimal amount_cents (-2))
    (mkDecimal balance_cents (-2)) ty None false false None.

(** A deposit into an overdrawn account: 500.00 in, balance -120.00. *)
Definition overdrawn_deposit : Transaction :=
  raw CREDIT "CUSTOMER DEPOSIT" 50000 (-12000).

(** An advance repayment that bounced. *)
Definition bounced_mca_debit : Transaction :=
  raw DEBIT "KABBAGE DAILY PMT NSF" (-30000) 20000.

(** The transactions of the end-to-end scenarios. *)
Definition scenario1 : Transaction :=
  raw CREDIT "ACH CREDIT FROM CUSTOMER" 50000 150000.

Definition scenario2 : Transaction :=
  raw DEBIT "WORKING CAPITAL DAILY ACH PMT" (-30000) 20000.

Definition scenario3 : Transaction :=
  raw DEBIT "OVERDRAFT FEE" (-3500) (-3500).

(** A deposit of [amount_cents] on the given day of January 2024. *)
Definition deposit (amount_cents : Z) (day_of_month : Z) : Transaction :=
  mkTransaction (mkDate 2024 1 day_of_month) "DEPOSIT"
    (mkDecimal amount_cents (-2)) (mkDecimal 1000000 (-2)) CREDIT None false
    false None.

(** Scenario 4: twelve credits on working days, six of them of exactly
    1000.00. *)
Definition scenario4 : list Transaction :=
  [ deposit 100000 2; deposit 100000 3; deposit 100000 4;
    deposit 100000 5; deposit 100000 8; deposit 100000 9;
    deposit 12345 10; deposit 2345 11; deposit 345 12;
    deposit 45 16; deposit 11145 17; deposit 11245 18 ].

(** A deposit of [k] hundreds and 10^-18 on the given day of January
    2024. *)
Definition almost_hundreds (k : Z) (day_of_month : Z) : Transaction :=
  mkTransaction (mkDate 2024 1 day_of_month) "DEPOSIT"
    (mkDecimal (k * 10 ^ 20 + 1) (-18)) (mkDecimal 1000000 (-2)) CREDIT None
    false false None.

(** Ten deposits on working days, of 100.000000000000000001,
    200.000000000000000001, ... : none is a multiple of 100. *)
Definition almost_round : list Transaction :=
  [ almost_hundreds 1 2; almost_hundreds 2 3; almost_hundreds 3 4;
    almost_hundreds 4 5; almost_hundreds 5 8; almost_hundreds 6 9;
    almost_hundreds 7 10; almost_hundreds 8 11; almost_hundreds 9 12;
    almost_hundreds 10 16 ].

(** One deposit of 12.73 and nineteen of 2.01: the largest is exactly 5
    times the mean, 2.546. *)
Definition tie_at_five_times_mean : list Transaction :=
  deposit 1273 2 :: repeat (deposit 201 3) 19.

(** Nineteen deposits of 100.00 on a Saturday and one of 10000.00: every
    check of the fraud scorer triggers. *)
Definition all_checks : list Transaction :=
  deposit 1000000 5 :: repeat (deposit 10000 6) 19.

(** A statement with no transactions, and collaborators that would give
    non-zero results if they were called. *)
Definition sample_account : BankAccount :=
  mkBankAccount "First Bank" "****1234" (mkDate 2024 1 1) (mkDate 2024 1 31).

Definition empty_ocr (pdf_path : string) : OCRResult :=
  mkOCRResult sample_account [] 0.9.

Definition some_positions (transactions : list Transaction)
  : list MCAPosition :=
  [mkMCAPosition "LENDER" (mkDecimal 100 0) 1].

Definition some_stats (transactions : list Transaction) (month : string)
  : MonthlyStats :=
  mkMonthlyStats month (mkDecimal 1 0) (mkDecimal 1 0) (mkDecimal 1 0) 1.

Definition some_metrics (monthly : list MonthlyStats)
           (transactions : list Transaction) (positions : list MCAPosition)
  : UnderwritingMetrics :=
  mkUnderwritingMetrics (mkDecimal 1 0) 1 1 1 1 1 1 1.

Definition some_cashflow (month_data : option MonthData) : CashFlowMetrics :=
  mkCashFlowMetrics (mkDecimal 1 0) (mkDecimal 1 0) (mkDecimal 1 0)
    (mkDecimal 1 0) (mkDecimal 1 0) (mkDecimal 1 0).

(** A statement with three transactions. *)
Definition statement_ocr (pdf_path : string) : OCRResult :=
  mkOCRResult sample_account [scenario1; scenario2; scenario3] 0.9.

(** Three classified transactions of three categories. *)
Definition varied : list Transaction :=
  map TransactionClassifier.classify_transaction
      [scenario1; scenario2; scenario3].

End Samples.

(* ================================================================== *)
(** ** The classifier: what it leaves alone *)
(* ================================================================== *)

Module ClassifierFacts.

Import TransactionClassifier.

(** The NSF test reads the amount and the balance only. *)
Lemma is_nsf_ext (t t' : Transaction) (desc : string) :
  amount t' = amount t -> balance t' = balance t ->
  _is_nsf_transaction t' desc = _is_nsf_transaction t desc.
Proof.
  intros Ha Hb. unfold _is_nsf_transaction. now rewrite Ha, Hb.
Qed.

Lemma classify_unfold (t : Transaction) :
  classify_transaction t =
  if _is_nsf_transaction (branch t) (PyStr.upper (description t))
  then set_category NON_TRUE_REVENUE (branch t)
  else branch t.
Proof. reflexivity. Qed.

(** Neither branch touches the fields that come from the statement. *)
Lemma branch_input_fields (t : Transaction) :
  date (branch t) = date t /\
  description (branch t) = description t /\
  amount (branch t) = amount t /\
  balance (branch t) = balance t /\
  transaction_type (branch t) = transaction_type t.
Proof.
  unfold branch, _classify_credit, _classify_debit.
  destruct (transaction_type t) eqn:Ety.
  - destruct (any_in non_true_revenue _); [|destruct (any_in true_revenue _)];
      cbn; now rewrite Ety.
  - destruct (any_search mca_patterns _);
      [|destruct (any_in operating_expenses _);
        [|destruct (any_in transfers_out _)]]; cbn; now rewrite Ety.
Qed.

Lemma branch_nsf (t : Transaction) (desc : string) :
  _is_nsf_transaction (branch t) desc = _is_nsf_transaction t desc.
Proof.
  apply is_nsf_ext; apply branch_input_fields.
Qed.

Lemma classify_input_fields (t : Transaction) :
  date (classify_transaction t) = date t /\
  description (classify_transaction t) = description t /\
  amount (classify_transaction t) = amount t /\
  balance (classify_transaction t) = balance t /\
  transaction_type (classify_transaction t) = transaction_type t.
Proof.
  rewrite classify_unfold.
  destruct (_is_nsf_transaction _ _); cbn; apply branch_input_fields.
Qed.

(** Every branch assigns a category. *)
Lemma branch_category (t : Transaction) :
  exists c, category (branch t) = Some c.
Proof.
  unfold branch, _classify_credit, _classify_debit.
  destruct (transaction_type t).
  - destruct (any_in non_true_revenue _); [|destruct (any_in true_revenue _)];
      cbn; eauto.
  - destruct (any_search mca_patterns _);
      [|destruct (any_in operating_expenses _);
        [|destruct (any_in transfers_out _)]]; cbn; eauto.
Qed.

Lemma classify_category (t : Transaction) :
  exists c, category (classify_transaction t) = Some c.
Proof.
  rewrite classify_unfold.
  destruct (_is_nsf_transaction _ _); cbn; [eauto | apply branch_category].
Qed.

(** Running a branch on its own result changes nothing: each field it
    writes is written with a value that depends on the description only. *)
Lemma branch_idempotent (t : Transaction) :
  branch (branch t) = branch t.
Proof.
  destruct (branch_input_fields t) as (_ & Hd & _ & _ & Hty).
  unfold branch at 1. rewrite Hd, Hty.
  unfold branch, _classify_credit, _classify_debit.
  destruct (transaction_type t).
  - destruct (any_in non_true_revenue _); [|destruct (any_in true_revenue _)];
      reflexivity.
  - destruct (any_search mca_patterns _);
      [|destruct (any_in operating_expenses _);
        [|destruct (any_in transfers_out _)]]; reflexivity.
Qed.

(** Overwriting the category of a branch result and running the branch
    again gives the branch result back. *)
Lemma branch_set_category (t : Transaction) (c : TransactionCategory) :
  branch (set_category c (branch t)) = branch t.
Proof.
  destruct (branch_input_fields t) as (_ & Hd & _ & _ & Hty).
  unfold branch at 1. cbn [transaction_type description set_category].
  rewrite Hd, Hty.
  unfold branch, _classify_credit, _classify_debit.
  destruct (transaction_type t).
  - destruct (any_in non_true_revenue _); [|destruct (any_in true_revenue _)];
      reflexivity.
  - destruct (any_search mca_patterns _);
      [|destruct (any_in operating_expenses _);
        [|destruct (any_in transfers_out _)]]; reflexivity.
Qed.

End ClassifierFacts.

(* ================================================================== *)
(** ** Strings and regular expressions *)
(* ================================================================== *)

Module ReFacts.

Import Re TransactionClassifier.

(** Case mapping never turns a visible character into white space or
    back. *)
Lemma isspace_lower_char (c : ascii) :
  PyStr.isspace (PyStr.lower_char c) = PyStr.isspace c.
Proof.
  destruct c as [[] [] [] [] [] [] [] []]; reflexivity.
Qed.

Lemma chr_matches_nonspace (x c : ascii) :
  atom_matches (Chr x) c = true ->
  PyStr.isspace x = false -> PyStr.isspace c = false.
Proof.
  cbn. intros H Hx. apply Ascii.eqb_eq in H.
  rewrite <- isspace_lower_char, <- H, isspace_lower_char. exact Hx.
Qed.

Lemma occurs_has_nonspace (c : ascii) (s : string) :
  occurs c s -> PyStr.isspace c = false -> has_nonspace s = true.
Proof.
  induction s as [|c' s IH]; cbn; [tauto|].
  intros [->|H] Hc.
  - now rewrite Hc.
  - rewrite (IH H Hc). apply orb_true_r.
Qed.

(** What [greedy] hands to the rest of the pattern is a tail of the text:
    every character of it occurs in the text. *)
Lemma greedy_inv (R : Type) (a : atom) (k : string -> option R)
      (s : string) (r : R) :
  greedy a k s = Some r ->
  exists s', k s' = Some r /\ forall c, occurs c s' -> occurs c s.
Proof.
  induction s as [|c s IH]; cbn.
  - intros H. exists EmptyString. split; [exact H | tauto].
  - destruct (atom_matches a c).
    + destruct (greedy a k s) as [r'|] eqn:E.
      * intros [= ->]. destruct (IH eq_refl) as (s' & Hk & Hs').
        exists s'. split; [exact Hk|]. intros c' Hc'. right. auto.
      * intros H. exists (String c s). split; [exact H | auto].
    + intros H. exists (String c s). split; [exact H | auto].
Qed.

(** A match consumes, for each literal of the pattern, a character equal
    to it up to case. *)
Lemma match_here_literal (pat : pattern) :
  forall s opened grp r,
    match_here pat s opened grp = Some r ->
    forall x, In (One (Chr x)) pat ->
              exists c, occurs c s /\ atom_matches (Chr x) c = true.
Proof.
  induction pat as [|it pat IH]; intros s opened grp r Hm x Hin;
    [destruct Hin|].
  destruct it as [a|a|a| |]; cbn [match_here] in Hm.
  - destruct s as [|c s]; [discriminate|].
    destruct (atom_matches a c) eqn:Ea; [|discriminate].
    destruct Hin as [[= ->]|Hin].
    + exists c. split; [now left | exact Ea].
    + destruct (IH _ _ _ _ Hm x Hin) as (c' & Hc' & Hx).
      exists c'. split; [now right | exact Hx].
  - destruct Hin as [[=]|Hin].
    apply greedy_inv in Hm. destruct Hm as (s' & Hk & Hs').
    destruct (IH _ _ _ _ Hk x Hin) as (c' & Hc' & Hx).
    exists c'. split; [auto | exact Hx].
  - destruct Hin as [[=]|Hin].
    destruct s as [|c s]; [discriminate|].
    destruct (atom_matches a c); [|discriminate].
    apply greedy_inv in Hm. destruct Hm as (s' & Hk & Hs').
    destruct (IH _ _ _ _ Hk x Hin) as (c' & Hc' & Hx).
    exists c'. split; [right; auto | exact Hx].
  - destruct Hin as [[=]|Hin]. eauto.
  - destruct Hin as [[=]|Hin]. eauto.
Qed.

Lemma search_literal (pat : pattern) (s : string) (r : option string) :
  search pat s = Some r ->
  forall x, In (One (Chr x)) pat ->
            exists c, occurs c s /\ atom_matches (Chr x) c = true.
Proof.
  induction s as [|c0 s IH]; cbn [search].
  - destruct (match_here pat EmptyString None None) eqn:E; [|discriminate].
    intros _ x Hin. eapply match_here_literal; eassumption.
  - destruct (match_here pat (String c0 s) None None) eqn:E.
    + intros _ x Hin. eapply match_here_literal; eassumption.
    + intros H x Hin. destruct (IH H x Hin) as (c & Hc & Hx).
      exists c. split; [now right | exact Hx].
Qed.

(** A text in which a pattern with a visible literal is found holds a
    visible character. *)
Lemma search_has_nonspace (pat : pattern) (s : string) (r : option string) :
  asks_nonspace pat = true -> search pat s = Some r -> has_nonspace s = true.
Proof.
  unfold asks_nonspace. intros Hp Hs.
  apply existsb_exists in Hp. destruct Hp as (it & Hin & Hit).
  destruct it as [[x| |p]|a|a| |]; try discriminate.
  destruct (search_literal _ _ Hs x Hin) as (c & Hc & Hx).
  apply occurs_has_nonspace with c; [exact Hc|].
  apply chr_matches_nonspace with x; [exact Hx|].
  now apply negb_true_iff.
Qed.

(** Group 1 takes part in every match of a pattern in which it closes. *)
Lemma match_here_group (pat : pattern) :
  forall s opened grp r,
    match_here pat s opened grp = Some r ->
    grp <> None \/
    closes_group (match opened with Some _ => true | None => false end) pat
    = true ->
    r <> None.
Proof.
  induction pat as [|it pat IH]; intros s opened grp r Hm Hc.
  - cbn in Hm, Hc. injection Hm as <-. destruct Hc; [assumption|discriminate].
  - destruct it as [a|a|a| |]; cbn [match_here closes_group] in Hm, Hc.
    + destruct s as [|c s]; [discriminate|].
      destruct (atom_matches a c); [|discriminate]. eauto.
    + apply greedy_inv in Hm. destruct Hm as (s' & Hk & _). eauto.
    + destruct s as [|c s]; [discriminate|].
      destruct (atom_matches a c); [|discriminate].
      apply greedy_inv in Hm. destruct Hm as (s' & Hk & _). eauto.
    + eapply IH; [exact Hm|]. destruct Hc as [Hc|Hc]; [now left | now right].
    + eapply IH; [exact Hm|].
      destruct opened as [from|].
      * left. discriminate.
      * destruct Hc as [Hc|Hc]; [now left | now right].
Qed.

Lemma search_group (pat : pattern) (s : string) (r : option string) :
  closes_group false pat = true ->
  search pat s = Some r -> r <> None.
Proof.
  intros Hc. induction s as [|c0 s IH]; cbn [search].
  - destruct (match_here _ EmptyString None None) eqn:E; [|discriminate].
    intros [= <-]. eapply match_here_group; [exact E | now right].
  - destruct (match_here _ (String c0 s) None None) eqn:E.
    + intros [= <-]. eapply match_here_group; [exact E | now right].
    + exact IH.
Qed.

(** The lender patterns all close group 1, so [match.group(1)] is a
    string whenever one of them matches. *)
Lemma lender_patterns_capture (description : string) (r : option string) :
  first_capture lender_patterns description = Some r -> r <> None.
Proof.
  assert (H : forallb (closes_group false) lender_patterns = true)
    by reflexivity.
  revert H. generalize lender_patterns as table.
  induction table as [|p table IH]; cbn [first_capture forallb];
    [discriminate|].
  intros Hall. apply andb_prop in Hall. destruct Hall as [Hp Hall].
  destruct (search p description) as [m|] eqn:E; [|auto].
  intros [= <-]. pose proof (search_group _ _ Hp E) as Hm.
  destruct m; [discriminate | congruence].
Qed.

(** A description in which a lender signature is found has a visible
    character. *)
Lemma mca_match_has_nonspace (desc : string) :
  any_search mca_patterns desc = true -> has_nonspace desc = true.
Proof.
  assert (H : forallb asks_nonspace mca_patterns = true) by reflexivity.
  unfold any_search. intros Hs.
  apply existsb_exists in Hs. destruct Hs as (p & Hin & Hp).
  rewrite forallb_forall in H. specialize (H p Hin).
  destruct (search p desc) as [r|] eqn:E; [|discriminate].
  eapply search_has_nonspace; eassumption.
Qed.

(** [split()] of a text with a visible character is not empty. *)
Lemma split_aux_nonempty (s : string) :
  forall word, word <> [] \/ has_nonspace s = true ->
               PyStr.split_aux word s <> [].
Proof.
  induction s as [|c s IH]; intros word H; cbn [PyStr.split_aux].
  - destruct H as [H|H]; [|discriminate]. destruct word; [tauto|discriminate].
  - cbn [has_nonspace] in H. destruct (PyStr.isspace c) eqn:Ec.
    + destruct word as [|w word].
      * cbn. apply IH. right. destruct H as [H|H]; [tauto | exact H].
      * discriminate.
    + apply IH. left. discriminate.
Qed.

Lemma split_nonempty (s : string) :
  has_nonspace s = true -> PyStr.split s <> [].
Proof.
  intros H. apply split_aux_nonempty. now right.
Qed.

(** The extraction of the lender name gives a string for every description
    in which a lender signature is found. *)
Lemma extract_lender_name_some (desc : string) :
  any_search mca_patterns desc = true ->
  exists l, _extract_lender_name desc = Some l.
Proof.
  intros Hm. unfold _extract_lender_name.
  destruct (first_capture lender_patterns desc) as [r|] eqn:E.
  - apply lender_patterns_capture in E. destruct r as [l|]; [eauto|tauto].
  - pose proof (split_nonempty _ (mca_match_has_nonspace _ Hm)) as Hs.
    destruct (PyStr.split desc) as [|w ws]; [tauto|]. cbn [firstn]. eauto.
Qed.

End ReFacts.

(* ================================================================== *)
(** ** The classifier: its categories and flags *)
(* ================================================================== *)

Module ClassifierSpec.

Import TransactionClassifier ClassifierFacts ReFacts.

Lemma any_in_true (table : list string) (desc : string) :
  any_in table desc = true <-> keyword_occurs table desc.
Proof. unfold any_in, keyword_occurs. apply existsb_exists. Qed.

Lemma any_in_false (table : list string) (desc : string) :
  any_in table desc = false <-> ~ keyword_occurs table desc.
Proof.
  rewrite <- any_in_true. destruct (any_in table desc); split; congruence.
Qed.

Lemma is_nsf_true (t : Transaction) (desc : string) :
  _is_nsf_transaction t desc = true <-> nsf_condition t desc.
Proof.
  unfold _is_nsf_transaction, nsf_condition, dec_ltb0, dec_gtb0.
  rewrite <- any_in_true.
  destruct (any_in nsf_patterns desc); [tauto|].
  destruct (Z.ltb_spec (dec_coef (balance t)) 0); [tauto|].
  destruct (PyStr.contains "RETURN" desc); cbn [andb].
  - destruct (Z.ltb_spec 0 (dec_coef (amount t))).
    + tauto.
    + split; [discriminate|]. intros [H1|[H1|[_ H1]]]; try discriminate; lia.
  - split; [discriminate|]. intros [H1|[H1|[H1 _]]]; try discriminate; lia.
Qed.

(** C1 (as the code has it). The NSF override rewrites the category and
    leaves the flags of the branch behind: a deposit into an overdrawn
    account ends as NON_TRUE_REVENUE and still flagged true revenue, and a
    bounced advance repayment ends as NON_TRUE_REVENUE and still flagged an
    MCA payment. The category itself is always one of the five. *)
Theorem nsf_override_leaves_stale_flags :
  (category (classify_transaction Samples.overdrawn_deposit)
   = Some NON_TRUE_REVENUE /\
   is_true_revenue (classify_transaction Samples.overdrawn_deposit) = true) /\
  (category (classify_transaction Samples.bounced_mca_debit)
   = Some NON_TRUE_REVENUE /\
   is_mca_payment (classify_transaction Samples.bounced_mca_debit) = true) /\
  (forall t, exists c, category (classify_transaction t) = Some c).
Proof.
  split; [|split].
  - now vm_compute.
  - now vm_compute.
  - exact classify_category.
Qed.

(** C2. A transaction whose balance after the transaction is negative is
    classified NON_TRUE_REVENUE, whatever its description, its direction
    and the category its branch chose. *)
Theorem negative_balance_non_true_revenue (t : Transaction) :
  (dec_coef (balance t) < 0)%Z ->
  category (classify_transaction t) = Some NON_TRUE_REVENUE.
Proof.
  intros Hneg. rewrite classify_unfold, branch_nsf.
  assert (H : _is_nsf_transaction t (PyStr.upper (description t)) = true).
  { apply is_nsf_true. right. now left. }
  now rewrite H.
Qed.

Lemma negative_balance_non_true_revenue_witness :
  category (classify_transaction Samples.scenario3) = Some NON_TRUE_REVENUE.
Proof.
  apply (negative_balance_non_true_revenue Samples.scenario3).
  cbn. lia.
Defined.

(** C6. The credit branch looks for a non-true-revenue keyword first: if
    one occurs in the description the result is NON_TRUE_REVENUE and not
    true revenue, also when a true-revenue keyword occurs as well. If none
    occurs the result is TRUE_REVENUE and true revenue, whether a
    true-revenue keyword occurs or the default applies. *)
Theorem classify_credit_precedence (t : Transaction) (desc : string) :
  (keyword_occurs non_true_revenue desc ->
   category (_classify_credit t desc) = Some NON_TRUE_REVENUE /\
   is_true_revenue (_classify_credit t desc) = false) /\
  (~ keyword_occurs non_true_revenue desc ->
   category (_classify_credit t desc) = Some TRUE_REVENUE /\
   is_true_revenue (_classify_credit t desc) = true) /\
  (~ keyword_occurs non_true_revenue desc ->
   ~ keyword_occurs true_revenue desc ->
   _classify_credit t desc =
   set_is_true_revenue true (set_category TRUE_REVENUE t)).
Proof.
  unfold _classify_credit. repeat split.
  - apply any_in_true in H. now rewrite H.
  - apply any_in_true in H. now rewrite H.
  - apply any_in_false in H. rewrite H.
    now destruct (any_in true_revenue desc).
  - apply any_in_false in H. rewrite H.
    now destruct (any_in true_revenue desc).
  - intros Hn Ht. apply any_in_false in Hn, Ht. now rewrite Hn, Ht.
Qed.

Lemma classify_credit_precedence_witness :
  (category (_classify_credit (Samples.raw CREDIT "x" 1 1)
                              "TRANSFER FROM SAVINGS DEPOSIT")
   = Some NON_TRUE_REVENUE /\
   is_true_revenue (_classify_credit (Samples.raw CREDIT "x" 1 1)
                                     "TRANSFER FROM SAVINGS DEPOSIT")
   = false) /\
  (category (_classify_credit (Samples.raw CREDIT "x" 1 1) "ZELLE FROM BOB")
   = Some TRUE_REVENUE /\
   is_true_revenue (_classify_credit (Samples.raw CREDIT "x" 1 1)
                                     "ZELLE FROM BOB") = true).
Proof.
  split.
  - apply (classify_credit_precedence (Samples.raw CREDIT "x" 1 1)
                                      "TRANSFER FROM SAVINGS DEPOSIT").
    apply any_in_true. reflexivity.
  - apply (classify_credit_precedence (Samples.raw CREDIT "x" 1 1)
                                      "ZELLE FROM BOB").
    apply any_in_false. reflexivity.
Defined.

(** C7. Classifying a classified transaction again changes nothing. *)
Theorem classify_idempotent (t : Transaction) :
  classify_transaction (classify_transaction t) = classify_transaction t.
Proof.
  destruct (classify_input_fields t) as (_ & Hd & Ha & Hb & _).
  rewrite (classify_unfold (classify_transaction t)).
  rewrite branch_nsf, Hd, (is_nsf_ext t (classify_transaction t) _ Ha Hb).
  rewrite (classify_unfold t), branch_nsf.
  destruct (_is_nsf_transaction t _).
  - now rewrite branch_set_category.
  - apply branch_idempotent.
Qed.

(** C8. When the NSF test succeeds, the result is the result of the branch
    with the category replaced: the flags and the lender are those of the
    branch. So a credit classified by a true-revenue keyword (no
    non-true-revenue keyword occurs) whose balance is negative ends as
    NON_TRUE_REVENUE and flagged true revenue, and a debit with a lender
    signature and an NSF keyword ends as NON_TRUE_REVENUE and flagged an
    MCA payment. *)
Theorem nsf_override_frame (t : Transaction) :
  let desc := PyStr.upper (description t) in
  (nsf_condition t desc ->
   classify_transaction t = set_category NON_TRUE_REVENUE (branch t) /\
   is_true_revenue (classify_transaction t) = is_true_revenue (branch t) /\
   is_mca_payment (classify_transaction t) = is_mca_payment (branch t) /\
   mca_lender (classify_transaction t) = mca_lender (branch t)) /\
  (transaction_type t = CREDIT ->
   ~ keyword_occurs non_true_revenue desc ->
   keyword_occurs true_revenue desc ->
   (dec_coef (balance t) < 0)%Z ->
   category (classify_transaction t) = Some NON_TRUE_REVENUE /\
   is_true_revenue (classify_transaction t) = true) /\
  (transaction_type t = DEBIT ->
   any_search mca_patterns desc = true ->
   keyword_occurs nsf_patterns desc ->
   category (classify_transaction t) = Some NON_TRUE_REVENUE /\
   is_mca_payment (classify_transaction t) = true).
Proof.
  cbv zeta.
  assert (Hframe : nsf_condition t (PyStr.upper (description t)) ->
                   classify_transaction t
                   = set_category NON_TRUE_REVENUE (branch t)).
  { intros H. apply is_nsf_true in H.
    now rewrite classify_unfold, branch_nsf, H. }
  split; [|split].
  - intros H. rewrite (Hframe H). repeat split.
  - intros Hty Hn Ht Hneg.
    rewrite Hframe by (right; now left). cbn.
    split; [reflexivity|].
    unfold branch, _classify_credit. rewrite Hty.
    apply any_in_false in Hn. apply any_in_true in Ht. now rewrite Hn, Ht.
  - intros Hty Hm Hk.
    rewrite Hframe by now left. cbn.
    split; [reflexivity|].
    unfold branch, _classify_debit. now rewrite Hty, Hm.
Qed.

Lemma nsf_override_frame_witness :
  (classify_transaction Samples.overdrawn_deposit
   = set_category NON_TRUE_REVENUE (branch Samples.overdrawn_deposit)) /\
  (category (classify_transaction Samples.overdrawn_deposit)
   = Some NON_TRUE_REVENUE /\
   is_true_revenue (classify_transaction Samples.overdrawn_deposit) = true) /\
  (category (classify_transaction Samples.bounced_mca_debit)
   = Some NON_TRUE_REVENUE /\
   is_mca_payment (classify_transaction Samples.bounced_mca_debit) = true).
Proof.
  destruct (nsf_override_frame Samples.overdrawn_deposit) as (H1 & H2 & _).
  destruct (nsf_override_frame Samples.bounced_mca_debit) as (_ & _ & H3).
  split; [|split].
  - apply H1. right. left. cbn. lia.
  - apply H2.
    + reflexivity.
    + apply any_in_false. reflexivity.
    + apply any_in_true. reflexivity.
    + cbn. lia.
  - apply H3.
    + reflexivity.
    + reflexivity.
    + apply any_in_true. reflexivity.
Defined.

(** C10. A debit that the classifier marks as an MCA payment carries a
    lender name: a lender signature was found in its description, the
    description therefore has a visible character, and the extraction
    returns a string. *)
Theorem mca_payment_has_lender (t : Transaction) :
  transaction_type t = DEBIT ->
  is_mca_payment t = false ->
  is_mca_payment (classify_transaction t) = true ->
  any_search mca_patterns (PyStr.upper (description t)) = true /\
  has_nonspace (PyStr.upper (description t)) = true /\
  exists l, mca_lender (classify_transaction t) = Some l /\
            _extract_lender_name (PyStr.upper (description t)) = Some l.
Proof.
  intros Hty Hraw Hmark.
  assert (Hm : any_search mca_patterns (PyStr.upper (description t)) = true).
  { revert Hmark. rewrite classify_unfold.
    unfold branch, _classify_debit. rewrite Hty.
    destruct (any_search mca_patterns _); [reflexivity|].
    destruct (any_in operating_expenses _);
      [|destruct (any_in transfers_out _)];
      destruct (_is_nsf_transaction _ _); cbn; congruence. }
  split; [exact Hm|]. split; [now apply mca_match_has_nonspace|].
  destruct (extract_lender_name_some _ Hm) as (l & Hl).
  exists l. split; [|exact Hl].
  rewrite classify_unfold. unfold branch, _classify_debit.
  rewrite Hty, Hm.
  destruct (_is_nsf_transaction _ _); cbn; exact Hl.
Qed.

Lemma mca_payment_has_lender_witness :
  exists l, mca_lender (classify_transaction Samples.scenario2) = Some l /\
            _extract_lender_name (PyStr.upper (description Samples.scenario2))
            = Some l.
Proof.
  apply (mca_payment_has_lender Samples.scenario2); reflexivity.
Defined.

(** The first three end-to-end scenarios. *)
Example scenario1_true_revenue :
  category (classify_transaction Samples.scenario1) = Some TRUE_REVENUE /\
  is_true_revenue (classify_transaction Samples.scenario1) = true.
Proof. now vm_compute. Qed.

Example scenario2_mca_payment :
  category (classify_transaction Samples.scenario2) = Some MCA_PAYMENT /\
  is_mca_payment (classify_transaction Samples.scenario2) = true /\
  mca_lender (classify_transaction Samples.scenario2)
  = Some "WORKING CAPITAL DAILY ACH PMT".
Proof. now vm_compute. Qed.

Example scenario3_nsf :
  category (classify_transaction Samples.scenario3) = Some NON_TRUE_REVENUE.
Proof. now vm_compute. Qed.

End ClassifierSpec.

(* ================================================================== *)
(** ** The fraud scorer *)
(* ================================================================== *)

Module FraudFacts.

Import PyNum FraudDetector FraudSpec.

(** *** Counting loops *)

Lemma count_if_acc (A : Type) (p : A -> bool) (l : list A) (acc : Z) :
  fold_left (fun acc t => if p t then (acc + 1)%Z else acc) l acc
  = (acc + count p l)%Z.
Proof.
  revert acc. unfold count.
  induction l as [|x l IH]; intros acc; cbn [fold_left filter].
  - cbn. lia.
  - rewrite IH. destruct (p x); cbn [List.length]; lia.
Qed.

Lemma count_if_count (A : Type) (p : A -> bool) (l : list A) :
  count_if p l = count p l.
Proof. unfold count_if. now rewrite count_if_acc. Qed.

Lemma count_app (A : Type) (p : A -> bool) (l1 l2 : list A) :
  count p (l1 ++ l2) = (count p l1 + count p l2)%Z.
Proof.
  unfold count. rewrite filter_app, length_app. lia.
Qed.

Lemma count_nonneg (A : Type) (p : A -> bool) (l : list A) :
  (0 <= count p l)%Z.
Proof. unfold count. lia. Qed.

Lemma count_ext (A : Type) (p q : A -> bool) (l : list A) :
  (forall x, In x l -> p x = q x) -> count p l = count q l.
Proof.
  intros H. unfold count. f_equal. f_equal. now apply filter_ext_in.
Qed.

Lemma count_In_pos (A : Type) (p : A -> bool) (l : list A) (x : A) :
  In x l -> p x = true -> (1 <= count p l)%Z.
Proof.
  intros Hin Hp. unfold count.
  assert (H : In x (filter p l)) by (apply filter_In; auto).
  destruct (filter p l); [destruct H | cbn [List.length]; lia].
Qed.

Lemma float_of_Z_100 : float_of_Z 100 = 100%float.
Proof. reflexivity. Qed.

Lemma float_of_Z_5 : float_of_Z 5 = 5%float.
Proof. reflexivity. Qed.

Lemma is_round_amount_remainder (t : Transaction) :
  is_round_amount t = float_remainder_100_is_zero t.
Proof.
  unfold is_round_amount, float_remainder_100_is_zero.
  now rewrite float_of_Z_100.
Qed.

Lemma round_number_correct (txs : list Transaction) :
  _has_round_number_pattern txs = binary64_round_check txs.
Proof.
  unfold _has_round_number_pattern, binary64_round_check.
  rewrite count_if_count.
  rewrite (count_ext is_round_amount float_remainder_100_is_zero)
    by (intros t _; apply is_round_amount_remainder).
  destruct (Z.ltb_spec (len (credits_of txs)) 10);
    destruct (Z.leb_spec 10 (len (credits_of txs))); try lia; reflexivity.
Qed.

(** *** The weekend loop *)

Lemma count_cons (A : Type) (p : A -> bool) (x : A) (l : list A) :
  count p (x :: l) = ((if p x then 1 else 0) + count p l)%Z.
Proof.
  unfold count. cbn [filter]. destruct (p x); cbn [List.length]; lia.
Qed.

Lemma len_cons (A : Type) (x : A) (l : list A) :
  len (x :: l) = (1 + len l)%Z.
Proof. unfold len. cbn [List.length]. lia. Qed.

Lemma credits_of_cons (t : Transaction) (txs : list Transaction) :
  credits_of (t :: txs)
  = if is_credit t then t :: credits_of txs else credits_of txs.
Proof. reflexivity. Qed.

Lemma timing_loop (txs : list Transaction) :
  forall w n,
    fold_left timing_step txs (w, n)
    = ((w + count on_weekend (credits_of txs))%Z,
       (n + len (credits_of txs))%Z).
Proof.
  induction txs as [|t txs IH]; intros w n.
  - cbn. f_equal; lia.
  - cbn [fold_left]. rewrite credits_of_cons.
    unfold timing_step, is_credit.
    destruct (transaction_type t).
    + rewrite count_cons, len_cons. unfold on_weekend at 1.
      destruct (5 <=? weekday (date t))%Z; rewrite IH; f_equal; lia.
    + apply IH.
Qed.

Lemma unusual_timing_correct (txs : list Transaction) :
  _has_unusual_timing txs = timing_check txs.
Proof.
  unfold _has_unusual_timing, timing_check.
  rewrite timing_loop. cbn [Z.add].
  now destruct (len (credits_of txs) =? 0)%Z.
Qed.

(** *** The pattern-break test *)

Lemma existsb_map (A B : Type) (f : A -> B) (p : B -> bool) (l : list A) :
  existsb p (map f l) = existsb (fun x => p (f x)) l.
Proof.
  induction l as [|x l IH]; [reflexivity|]. cbn [map existsb]. now rewrite IH.
Qed.

Lemma pattern_breaks_with_correct (py_sum : list float -> float)
      (txs : list Transaction) :
  FraudDetectorSum._has_pattern_breaks_with py_sum txs
  = binary64_pattern_check py_sum txs.
Proof.
  unfold FraudDetectorSum._has_pattern_breaks_with, binary64_pattern_check,
    binary64_mean.
  assert (Hlen : len (map (fun t => float_of_Decimal (amount t))
                          (credits_of txs)) = len (credits_of txs)).
  { unfold len. now rewrite length_map. }
  rewrite Hlen, existsb_map, float_of_Z_5.
  destruct (Z.ltb_spec (len (credits_of txs)) 20);
    destruct (Z.leb_spec 20 (len (credits_of txs))); try lia; reflexivity.
Qed.

(** The scorer is the scorer over the summation from the left. *)
Lemma pattern_breaks_instance (txs : list Transaction) :
  _has_pattern_breaks txs
  = FraudDetectorSum._has_pattern_breaks_with float_sum txs.
Proof. reflexivity. Qed.

Lemma score_instance (txs : list Transaction) :
  calculate_thumbprint_score txs
  = FraudDetectorSum.calculate_thumbprint_score_with float_sum txs.
Proof. reflexivity. Qed.

Lemma pattern_breaks_correct (txs : list Transaction) :
  _has_pattern_breaks txs = binary64_pattern_check float_sum txs.
Proof.
  rewrite pattern_breaks_instance. apply pattern_breaks_with_correct.
Qed.

(** *** Numerical equality of decimals is an equivalence *)

Lemma dec_eqb_scaled (a b : Decimal) (m : Z) :
  (m <= dec_exp a)%Z -> (m <= dec_exp b)%Z ->
  dec_eqb a b = true <->
  (dec_coef a * 10 ^ (dec_exp a - m) = dec_coef b * 10 ^ (dec_exp b - m))%Z.
Proof.
  intros Ha Hb. unfold dec_eqb.
  set (e := Z.min (dec_exp a) (dec_exp b)).
  assert (He : (m <= e)%Z) by (unfold e; lia).
  assert (Hea : (e <= dec_exp a)%Z) by (unfold e; lia).
  assert (Heb : (e <= dec_exp b)%Z) by (unfold e; lia).
  replace (dec_exp a - m)%Z with ((dec_exp a - e) + (e - m))%Z by lia.
  replace (dec_exp b - m)%Z with ((dec_exp b - e) + (e - m))%Z by lia.
  rewrite !Z.pow_add_r by lia. rewrite !Z.mul_assoc.
  assert (Hp : (10 ^ (e - m) <> 0)%Z) by (apply Z.pow_nonzero; lia).
  rewrite Z.eqb_eq. split.
  - intros ->. reflexivity.
  - intros H. now apply Z.mul_cancel_r in H.
Qed.

Lemma dec_eqb_refl (a : Decimal) : dec_eqb a a = true.
Proof. unfold dec_eqb. apply Z.eqb_refl. Qed.

Lemma dec_eqb_sym (a b : Decimal) : dec_eqb a b = dec_eqb b a.
Proof.
  unfold dec_eqb. rewrite (Z.min_comm (dec_exp b)). apply Z.eqb_sym.
Qed.

Lemma dec_eqb_trans (a b c : Decimal) :
  dec_eqb a b = true -> dec_eqb b c = true -> dec_eqb a c = true.
Proof.
  set (m := Z.min (dec_exp a) (Z.min (dec_exp b) (dec_exp c))).
  intros Hab Hbc.
  apply (@dec_eqb_scaled a b m) in Hab; [|unfold m; lia|unfold m; lia].
  apply (@dec_eqb_scaled b c m) in Hbc; [|unfold m; lia|unfold m; lia].
  apply (@dec_eqb_scaled a c m); [unfold m; lia|unfold m; lia|].
  congruence.
Qed.

(** Equal numbers are equal to the same numbers. *)
Lemma dec_eqb_congr (a b x : Decimal) :
  dec_eqb a b = true -> dec_eqb a x = dec_eqb b x.
Proof.
  intros Hab.
  destruct (dec_eqb a x) eqn:Ea, (dec_eqb b x) eqn:Eb; try reflexivity.
  - rewrite dec_eqb_sym in Hab.
    rewrite (dec_eqb_trans _ _ _ Hab Ea) in Eb. discriminate.
  - rewrite (dec_eqb_trans _ _ _ Hab Eb) in Ea. discriminate.
Qed.

(** *** The counter *)

(** The keys after one more key was counted. *)
Lemma counter_incr_keys (x : Decimal) (c : list (Decimal * Z)) :
  map fst (counter_incr x c)
  = if existsb (fun k => dec_eqb k x) (map fst c)
    then map fst c else (map fst c ++ [x])%list.
Proof.
  induction c as [|[k n] c IH]; [reflexivity|].
  cbn [counter_incr map fst existsb].
  destruct (dec_eqb k x); cbn [orb map fst]; [reflexivity|].
  rewrite IH. now destruct (existsb _ (map fst c)).
Qed.

Lemma distinct_keys_app (ks : list Decimal) (x : Decimal) :
  distinct_keys ks ->
  (forall k, In k ks -> dec_eqb k x = false) ->
  distinct_keys (ks ++ [x]).
Proof.
  induction ks as [|k ks IH]; cbn [distinct_keys app].
  - intros _ _. split; [intros k' []|exact I].
  - intros [Hk Hd] Hx. split.
    + intros k' Hin. apply in_app_or in Hin. destruct Hin as [Hin|[<-|[]]].
      * now apply Hk.
      * apply Hx. now left.
    + apply IH; [exact Hd|]. intros k' Hin. apply Hx. now right.
Qed.

(** What an entry of the counter holds after [x] was counted. *)
Lemma counter_incr_entry (x : Decimal) (c : list (Decimal * Z)) :
  distinct_keys (map fst c) ->
  forall k n,
    In (k, n) (counter_incr x c) ->
    (dec_eqb k x = false /\ In (k, n) c) \/
    (dec_eqb k x = true /\ In (k, (n - 1)%Z) c) \/
    (k = x /\ n = 1%Z /\ forall k', In k' (map fst c) -> dec_eqb k' x = false).
Proof.
  induction c as [|[k0 n0] c IH]; cbn [counter_incr map fst distinct_keys].
  - intros _ k n [[= <- <-]|[]]. right. right. repeat split. intros k' [].
  - intros [Hk0 Hd] k n. destruct (dec_eqb k0 x) eqn:E0.
    + intros [[= <- <-]|Hin].
      * right. left. split; [exact E0|]. left. f_equal. lia.
      * left. split; [|now right].
        assert (Hk : dec_eqb k0 k = false)
          by (apply Hk0; change k with (fst (k, n)); now apply in_map).
        destruct (dec_eqb k x) eqn:Ek; [|reflexivity].
        rewrite dec_eqb_sym in Ek.
        rewrite (dec_eqb_trans _ _ _ E0 Ek) in Hk. discriminate.
    + intros [[= <- <-]|Hin].
      * left. split; [exact E0 | now left].
      * destruct (IH Hd k n Hin) as [[H1 H2]|[[H1 H2]|(H1 & H2 & H3)]].
        -- left. split; [exact H1 | now right].
        -- right. left. split; [exact H1 | now right].
        -- right. right. repeat split; try assumption.
           intros k' [<-|Hin']; [exact E0 | now apply H3].
Qed.

Lemma count_none (A : Type) (p : A -> bool) (l : list A) :
  (forall x, In x l -> p x = false) -> count p l = 0%Z.
Proof.
  intros H. rewrite (count_ext p (fun _ => false) l H).
  unfold count. induction l as [|x l IH]; [reflexivity|]. cbn [filter].
  apply IH. intros y Hy. apply H. now right.
Qed.

Lemma counts_nil : counts [] [].
Proof.
  split; [exact I|]. split.
  - intros k n [].
  - intros x [].
Qed.

Lemma counts_step (c : list (Decimal * Z)) (seen : list Decimal)
      (x : Decimal) :
  counts c seen -> counts (counter_incr x c) (seen ++ [x]).
Proof.
  intros (Hd & Hn & Hk).
  assert (Hkeys := counter_incr_keys x c).
  split; [|split].
  - rewrite Hkeys.
    destruct (existsb (fun k => dec_eqb k x) (map fst c)) eqn:E; [exact Hd|].
    apply distinct_keys_app; [exact Hd|].
    intros k Hin. destruct (dec_eqb k x) eqn:Ek; [|reflexivity].
    assert (existsb (fun k => dec_eqb k x) (map fst c) = true)
      by (apply existsb_exists; eauto).
    congruence.
  - intros k n Hin. rewrite count_app, count_cons.
    replace (count (dec_eqb k) []) with 0%Z by reflexivity.
    destruct (counter_incr_entry x c Hd k n Hin)
      as [[H1 H2]|[[H1 H2]|(H1 & H2 & H3)]].
    + rewrite H1. destruct (Hn _ _ H2) as [-> Hs].
      split; [lia | apply in_or_app; now left].
    + rewrite H1. destruct (Hn _ _ H2) as [Hc Hs].
      split; [lia | apply in_or_app; now left].
    + subst k n. rewrite dec_eqb_refl.
      split; [|apply in_or_app; right; now left].
      rewrite count_none; [lia|].
      intros y Hy. destruct (Hk y Hy) as (k' & Hin' & Hk').
      destruct (dec_eqb x y) eqn:Exy; [|reflexivity].
      rewrite dec_eqb_sym in Exy.
      specialize (H3 k' Hin').
      rewrite (dec_eqb_trans _ _ _ Hk' Exy) in H3. discriminate H3.
  - intros y Hy. rewrite Hkeys. apply in_app_or in Hy.
    destruct Hy as [Hy|[<-|[]]].
    + destruct (Hk y Hy) as (k & Hin & Hky). exists k. split; [|exact Hky].
      destruct (existsb _ (map fst c)); [exact Hin|].
      apply in_or_app. now left.
    + destruct (existsb (fun k => dec_eqb k x) (map fst c)) eqn:E.
      * apply existsb_exists in E. exact E.
      * exists x. split; [apply in_or_app; right; now left|].
        apply dec_eqb_refl.
Qed.

Lemma counts_fold (keys : list Decimal) :
  forall c seen,
    counts c seen ->
    counts (fold_left (fun c k => counter_incr k c) keys c) (seen ++ keys).
Proof.
  induction keys as [|x keys IH]; intros c seen H; cbn [fold_left].
  - now rewrite app_nil_r.
  - replace (seen ++ x :: keys)%list with ((seen ++ [x]) ++ keys)%list
      by (rewrite <- app_assoc; reflexivity).
    apply IH. now apply counts_step.
Qed.

Lemma Counter_counts (keys : list Decimal) : counts (Counter keys) keys.
Proof. exact (counts_fold keys counts_nil). Qed.

Lemma identical_deposits_correct (txs : list Transaction) :
  _has_identical_deposits txs = identical_check txs.
Proof.
  unfold _has_identical_deposits, identical_check.
  set (amounts := map amount (credits_of txs)).
  destruct (Counter_counts amounts) as (_ & Hn & Hk).
  apply eq_iff_eq_true. rewrite !existsb_exists. split.
  - intros (n & Hin & H5). apply in_map_iff in Hin.
    destruct Hin as ([k n'] & <- & Hin). cbn [snd] in H5.
    destruct (Hn _ _ Hin) as [-> Hs]. exists k. split; assumption.
  - intros (a & Hin & H5). destruct (Hk a Hin) as (k & Hkin & Hka).
    apply in_map_iff in Hkin. destruct Hkin as ([k' n] & Hfst & Hkin).
    cbn [fst] in Hfst. subst k'.
    exists n. split; [change n with (snd (k, n)); now apply in_map|].
    destruct (Hn _ _ Hkin) as [-> _].
    rewrite (count_ext (dec_eqb k) (dec_eqb a)); [exact H5|].
    intros y _. now apply dec_eqb_congr.
Qed.

End FraudFacts.

(* ================================================================== *)
(** ** The fraud score *)
(* ================================================================== *)

Module FraudScore.

Import PyNum FraudDetector FraudDetectorSum FraudSpec ExactSpec FraudFacts.

(** C3. For every summation of floats the scorer is run with, the score
    is the sum, capped at 1000, of the contributions of the four checks,
    it lies between 0 and 1000, and the factors are the labels of the
    checks that triggered, in the order round number, identical, timing,
    pattern break. The checks are: 150 when there are at least 10 credits
    and the binary64 quotient of the number of credits with
    [float(amount) % 100 == 0] by the number of credits exceeds 0.3; 200
    when the amount of some credit recurs more than 5 times among the
    credits; 100 when there is a credit and the binary64 quotient of the
    number of weekend credits by the number of credits exceeds 0.2; 100
    when there are at least 20 credits and some [float(amount)] exceeds
    the binary64 product by 5 of the binary64 mean of the
    [float(amount)]. The scorer with the summation from the left is the
    instance at [float_sum]. *)
Theorem thumbprint_score_binary64 (py_sum : list float -> float)
        (txs : list Transaction) :
  let r := binary64_round_check txs in
  let i := identical_check txs in
  let u := timing_check txs in
  let b := binary64_pattern_check py_sum txs in
  calculate_thumbprint_score_with py_sum txs
  = (Z.min (contribution r 150 + contribution i 200
            + contribution u 100 + contribution b 100) 1000,
     (factor r label_round ++ factor i label_identical
      ++ factor u label_timing ++ factor b label_pattern)%list) /\
  (0 <= fst (calculate_thumbprint_score_with py_sum txs) <= 1000)%Z /\
  calculate_thumbprint_score txs
  = calculate_thumbprint_score_with float_sum txs.
Proof.
  cbv zeta. rewrite <- and_assoc. split; [|reflexivity].
  unfold calculate_thumbprint_score_with.
  rewrite round_number_correct, identical_deposits_correct,
    unusual_timing_correct, pattern_breaks_with_correct.
  destruct (binary64_round_check txs), (identical_check txs),
    (timing_check txs), (binary64_pattern_check py_sum txs);
    cbn; repeat split; try reflexivity; lia.
Qed.

(** C3 fails with the checks read in exact arithmetic. Ten credits of
    100.000000000000000001, 200.000000000000000001, ... on working days:
    no amount is a multiple of 100 and no two are equal, so no exact check
    triggers, yet each [float(amount)] is a multiple of 100 and the scorer
    returns 150 with the round-number factor, whatever the summation. And
    with one credit of 12.73 and nineteen of 2.01 no amount exceeds 5
    times the mean, 2.546, yet the scorer with the summation from the
    left adds the pattern-break factor. *)
Lemma thumbprint_score_not_exact :
  (forallb (fun t => negb (dec_multiple_of_100 (amount t)))
           Samples.almost_round = true /\
   len (credits_of Samples.almost_round) = 10%Z /\
   exact_score Samples.almost_round = (0%Z, []) /\
   forallb is_round_amount Samples.almost_round = true /\
   calculate_thumbprint_score Samples.almost_round
   = (150%Z, [label_round])) /\
  (len (credits_of Samples.tie_at_five_times_mean) = 20%Z /\
   (20 * 1273 = 5 * (1273 + 19 * 201))%Z /\
   exact_pattern_check Samples.tie_at_five_times_mean = false /\
   exact_score Samples.tie_at_five_times_mean
   = (200%Z, [label_identical]) /\
   _has_pattern_breaks Samples.tie_at_five_times_mean = true /\
   calculate_thumbprint_score Samples.tie_at_five_times_mean
   = (300%Z, [label_identical; label_pattern])).
Proof. repeat split; now vm_compute. Qed.

(** C9. The score never exceeds 550, so the cap at 1000 never applies, and
    the score is the sum of the points of the labels in the factors. *)
Theorem thumbprint_score_bound (txs : list Transaction) :
  (0 <= fst (calculate_thumbprint_score txs) <= 550)%Z /\
  fst (calculate_thumbprint_score txs)
  = total_points (snd (calculate_thumbprint_score txs)) /\
  Z.min (total_points (snd (calculate_thumbprint_score txs))) 1000
  = total_points (snd (calculate_thumbprint_score txs)).
Proof.
  unfold calculate_thumbprint_score.
  destruct (_has_round_number_pattern txs), (_has_identical_deposits txs),
    (_has_unusual_timing txs), (_has_pattern_breaks txs);
    vm_compute; repeat split; congruence.
Qed.

(** Scenario 4: six credits of 1000.00 among twelve trigger the
    round-number and the identical-deposits checks. *)
Example scenario4_score :
  calculate_thumbprint_score Samples.scenario4
  = (350%Z, [label_round; label_identical]).
Proof. now vm_compute. Qed.

(** The tie above triggers the pattern-break check under the compensated
    summation too, though the two sums differ. *)
Example tie_with_compensated_sum :
  calculate_thumbprint_score_with compensated_sum
    Samples.tie_at_five_times_mean
  = (300%Z, [label_identical; label_pattern]) /\
  PrimFloat.ltb
    (float_sum (map (fun t => float_of_Decimal (amount t))
                    Samples.tie_at_five_times_mean))
    (compensated_sum (map (fun t => float_of_Decimal (amount t))
                          Samples.tie_at_five_times_mean)) = true.
Proof. split; now vm_compute. Qed.

(** On the amounts from 0.00 to 200.00 in whole cents the remainder of
    [float(amount)] modulo 100 is 0 exactly at the multiples of 100. *)
Example round_amounts_in_cents :
  forallb (fun d => Bool.eqb
                      (PrimFloat.eqb (float_mod (float_of_Decimal d) 100) 0)
                      (dec_multiple_of_100 d))
          (cents (Z.to_nat 20001) 0) = true.
Proof. now vm_compute. Qed.

(** The fractions are binary64 quotients: 30000000000000001 in
    100000000000000000 is more than 3 in 10, and its binary64 quotient
    does not exceed the binary64 number 0.3. *)
Example fraction_rounding :
  (3 * 100000000000000000 <? 10 * 30000000000000001)%Z = true /\
  PrimFloat.ltb 0.3 (true_div 30000000000000001 100000000000000000) = false.
Proof. split; now vm_compute. Qed.

End FraudScore.

(* ================================================================== *)
(** ** Comparisons of binary64 numbers *)
(* ================================================================== *)

Module FloatFacts.

Import PyNum.

Lemma Prim2SF_zero : Prim2SF 0 = S754_zero false.
Proof. reflexivity. Qed.

Lemma Prim2SF_one : Prim2SF 1 = S754_finite false 4503599627370496 (-52).
Proof. reflexivity. Qed.

Lemma SFcompare_swap (x y : spec_float) :
  SFcompare y x = option_map CompOpp (SFcompare x y).
Proof.
  destruct x as [sx|sx| |sx mx ex], y as [sy|sy| |sy my ey]; cbn;
    try reflexivity;
    try (destruct sx; reflexivity);
    try (destruct sy; reflexivity);
    try (destruct sx, sy; reflexivity).
  f_equal. rewrite (Z.compare_antisym ex ey).
  rewrite !Pos.compare_cont_spec. cbn [Pos.switch_Eq].
  rewrite (Pos.compare_antisym mx my).
  destruct sx, sy; try reflexivity;
    destruct (ex ?= ey)%Z; cbn; try reflexivity;
    destruct (mx ?= my)%positive; reflexivity.
Qed.

Lemma ltb_leb (x y : float) :
  PrimFloat.ltb x y = true -> PrimFloat.leb x y = true.
Proof.
  rewrite ltb_spec, leb_spec. unfold SFltb, SFleb.
  now destruct (SFcompare (Prim2SF x) (Prim2SF y)) as [[]|].
Qed.

Lemma leb_not_ltb (x y : float) :
  PrimFloat.leb x y = true -> PrimFloat.ltb y x = false.
Proof.
  rewrite ltb_spec, leb_spec. unfold SFltb, SFleb.
  rewrite (SFcompare_swap (Prim2SF x) (Prim2SF y)).
  now destruct (SFcompare (Prim2SF x) (Prim2SF y)) as [[]|].
Qed.

(** Whatever is at most 0 is below 1. *)
Lemma leb_zero_ltb_one (x : float) :
  PrimFloat.leb x 0 = true -> PrimFloat.ltb x 1 = true.
Proof.
  rewrite ltb_spec, leb_spec, Prim2SF_zero, Prim2SF_one.
  unfold SFltb, SFleb.
  destruct (Prim2SF x) as [s|s| |s m e]; unfold SFcompare;
    try discriminate; try reflexivity; destruct s; try discriminate;
    reflexivity.
Qed.

(** [max(0.0, min(1.0, x))] lies between 0 and 1, for every [x]. *)
Lemma clamp_range (x : float) :
  PrimFloat.leb 0 (max2 0 (min2 1 x)) = true /\
  PrimFloat.leb (max2 0 (min2 1 x)) 1 = true.
Proof.
  unfold min2. destruct (PrimFloat.ltb x 1) eqn:E1.
  - unfold max2. destruct (PrimFloat.ltb 0 x) eqn:E0.
    + split; now apply ltb_leb.
    + split; reflexivity.
  - split; reflexivity.
Qed.

Lemma clamp_inside (x : float) :
  PrimFloat.ltb 0 x = true -> PrimFloat.ltb x 1 = true ->
  max2 0 (min2 1 x) = x.
Proof.
  intros H0 H1. unfold min2. rewrite H1. unfold max2. now rewrite H0.
Qed.

Lemma clamp_below (x : float) :
  PrimFloat.leb x 0 = true -> max2 0 (min2 1 x) = 0%float.
Proof.
  intros H. unfold min2. rewrite (leb_zero_ltb_one H).
  unfold max2. now rewrite (leb_not_ltb H).
Qed.

Lemma clamp_above (x : float) :
  PrimFloat.leb 1 x = true -> max2 0 (min2 1 x) = 1%float.
Proof.
  intros H. unfold min2. now rewrite (leb_not_ltb H).
Qed.

End FloatFacts.

(* ================================================================== *)
(** ** The controller *)
(* ================================================================== *)

Module PipelineSpec.

Import PyNum MoneyThumbSystem ConfidenceSpec FloatFacts.

Lemma category_eqb_eq (a b : TransactionCategory) :
  category_eqb a b = true <-> a = b.
Proof. destruct a, b; cbn; split; congruence. Qed.

Lemma category_present_In (txs : list Transaction) (c : TransactionCategory) :
  category_present txs c = true <-> In c (categories_present txs).
Proof.
  unfold category_present, categories_present.
  rewrite existsb_exists, in_flat_map. split.
  - intros (t & Hin & H). exists t. split; [exact Hin|].
    destruct (category t) as [c'|]; [|discriminate].
    apply category_eqb_eq in H. subst. now left.
  - intros (t & Hin & H). exists t. split; [exact Hin|].
    destruct (category t) as [c'|]; [|destruct H].
    destruct H as [->|[]]. now apply category_eqb_eq.
Qed.

Lemma all_categories_NoDup : NoDup all_categories.
Proof.
  unfold all_categories.
  repeat (constructor; [cbn; intuition discriminate|]). constructor.
Qed.

Lemma all_categories_full (c : TransactionCategory) : In c all_categories.
Proof. destruct c; cbn; tauto. Qed.

(** The size of the set of categories the controller builds is the number
    of distinct categories present. *)
Lemma transaction_types_count (txs : list Transaction) :
  FraudDetector.len (transaction_types txs) = distinct_categories txs.
Proof.
  unfold FraudDetector.len, distinct_categories, FraudSpec.count,
    transaction_types.
  f_equal. apply Permutation_length. apply NoDup_Permutation.
  - apply NoDup_nodup.
  - apply NoDup_filter, all_categories_NoDup.
  - intros c. rewrite nodup_In, filter_In, category_present_In.
    pose proof (all_categories_full c). tauto.
Qed.

Lemma final_confidence_unfold (base : float) (txs : list Transaction)
      (score : Z) :
  _calculate_final_confidence base txs score
  = max2 0 (min2 1 (adjusted_confidence base txs score)).
Proof.
  unfold _calculate_final_confidence, adjusted_confidence.
  now rewrite transaction_types_count.
Qed.

(** C5. The final confidence is the base confidence, less 0.3 if the fraud
    score exceeds 500 and else less 0.1 if it exceeds 200, less 0.2 if
    there are fewer than 20 transactions, plus 0.1 if at least 3 distinct
    categories are present, clamped to the interval from 0 to 1: it is
    that value when the value lies strictly inside, 0 when the value is at
    most 0 and 1 when it is at least 1. It lies between 0 and 1 for every
    input. *)
Theorem final_confidence_spec (base : float) (txs : list Transaction)
        (score : Z) :
  let c := adjusted_confidence base txs score in
  let r := _calculate_final_confidence base txs score in
  r = max2 0 (min2 1 c) /\
  (PrimFloat.leb 0 r = true /\ PrimFloat.leb r 1 = true) /\
  (PrimFloat.ltb 0 c = true -> PrimFloat.ltb c 1 = true -> r = c) /\
  (PrimFloat.leb c 0 = true -> r = 0%float) /\
  (PrimFloat.leb 1 c = true -> r = 1%float).
Proof.
  cbv zeta. rewrite final_confidence_unfold.
  split; [reflexivity|]. split; [apply clamp_range|].
  split; [apply clamp_inside|]. split; [apply clamp_below|apply clamp_above].
Qed.

Lemma final_confidence_spec_witness :
  _calculate_final_confidence 0.5 Samples.varied 600
  = adjusted_confidence 0.5 Samples.varied 600 /\
  _calculate_final_confidence 0.25 Samples.varied 600 = 0%float /\
  _calculate_final_confidence 1.5 Samples.varied 0 = 1%float.
Proof.
  split; [|split].
  - apply (final_confidence_spec 0.5 Samples.varied 600); reflexivity.
  - apply (final_confidence_spec 0.25 Samples.varied 600); reflexivity.
  - apply (final_confidence_spec 1.5 Samples.varied 0); reflexivity.
Defined.

(** C4. When the OCR engine returns no transactions the controller calls
    nothing after it and returns the empty response: no transactions, no
    MCA positions, no monthly summaries, metrics and cash flow all zero
    (fraud score 0), confidence 0.0. *)
Theorem empty_statement_short_circuit
        (process_statement : string -> OCRResult)
        (detect_positions : list Transaction -> list MCAPosition)
        (calculate_monthly_stats : list Transaction -> string -> MonthlyStats)
        (calculate_metrics :
           list MonthlyStats -> list Transaction -> list MCAPosition ->
           UnderwritingMetrics)
        (analyze_monthly_cashflow : option MonthData -> CashFlowMetrics)
        (start_time end_time : float) (pdf_path : string) :
  ocr_transactions (process_statement pdf_path) = [] ->
  let run :=
    process_bank_statement process_statement detect_positions
      calculate_monthly_stats calculate_metrics analyze_monthly_cashflow
      start_time end_time pdf_path in
  fst run = [CallOCR] /\
  account (snd run) = ocr_account (process_statement pdf_path) /\
  transactions (snd run) = [] /\
  mca_positions (snd run) = [] /\
  monthly_summaries (snd run) = [] /\
  metrics (snd run)
  = mkUnderwritingMetrics (mkDecimal 0 0) 0 0 0 0 0 0 0 /\
  fraud_score (metrics (snd run)) = 0%Z /\
  cash_flow (snd run)
  = mkCashFlowMetrics (mkDecimal 0 0) (mkDecimal 0 0) (mkDecimal 0 0)
      (mkDecimal 0 0) (mkDecimal 0 0) (mkDecimal 0 0) /\
  confidence_score (snd run) = 0%float /\
  processing_time (snd run) = (end_time - start_time)%float.
Proof.
  intros Hempty. cbv zeta. unfold process_bank_statement, call.
  cbn [bind]. rewrite Hempty. cbn. repeat split.
Qed.

Lemma empty_statement_short_circuit_witness :
  fst (process_bank_statement Samples.empty_ocr Samples.some_positions
         Samples.some_stats Samples.some_metrics Samples.some_cashflow
         10 12 "statement.pdf") = [CallOCR] /\
  fraud_score
    (metrics
       (snd (process_bank_statement Samples.empty_ocr Samples.some_positions
               Samples.some_stats Samples.some_metrics Samples.some_cashflow
               10 12 "statement.pdf"))) = 0%Z /\
  confidence_score
    (snd (process_bank_statement Samples.empty_ocr Samples.some_positions
            Samples.some_stats Samples.some_metrics Samples.some_cashflow
            10 12 "statement.pdf")) = 0%float.
Proof.
  destruct (empty_statement_short_circuit Samples.empty_ocr
              Samples.some_positions Samples.some_stats Samples.some_metrics
              Samples.some_cashflow 10 12 "statement.pdf" eq_refl)
    as (H1 & _ & _ & _ & _ & _ & H7 & _ & H9 & _).
  split; [exact H1|]. split; [exact H7 | exact H9].
Defined.

(** With transactions, every stage runs, in the order of the stages. *)
Example one_transaction_trace :
  fst (process_bank_statement
         (fun _ => mkOCRResult Samples.sample_account [Samples.scenario1] 0.9)
         Samples.some_positions Samples.some_stats Samples.some_metrics
         Samples.some_cashflow 10 12 "statement.pdf")
  = [CallOCR; CallClassify; CallDetectPositions; CallMonthlyStats;
     CallMetrics; CallFraudScore; CallCashflow; CallConfidence].
Proof. now vm_compute. Qed.

End PipelineSpec.

(* ================================================================== *)
(** ** More on the classifier *)
(* ================================================================== *)

Module ClassifierMore.

Import TransactionClassifier ClassifierFacts ReFacts ClassifierSpec.

(** X1. The debit branch tests the lender signatures first, then the
    operating-expense keywords, then the transfer-out keywords: a debit
    with an operating-expense keyword is an operating expense even when a
    transfer-out keyword occurs as well, and a debit that matches nothing
    is an operating expense too. Without a lender signature the MCA flag
    and the lender are left as they were; the revenue flag is never
    written. *)
Theorem classify_debit_precedence (t : Transaction) (desc : string) :
  (any_search mca_patterns desc = true ->
   category (_classify_debit t desc) = Some MCA_PAYMENT /\
   is_mca_payment (_classify_debit t desc) = true /\
   mca_lender (_classify_debit t desc) = _extract_lender_name desc) /\
  (any_search mca_patterns desc = false ->
   (keyword_occurs operating_expenses desc ->
    category (_classify_debit t desc) = Some OPERATING_EXPENSE) /\
   (~ keyword_occurs operating_expenses desc ->
    keyword_occurs transfers_out desc ->
    category (_classify_debit t desc) = Some TRANSFER_OUT) /\
   (~ keyword_occurs operating_expenses desc ->
    ~ keyword_occurs transfers_out desc ->
    category (_classify_debit t desc) = Some OPERATING_EXPENSE) /\
   is_mca_payment (_classify_debit t desc) = is_mca_payment t /\
   mca_lender (_classify_debit t desc) = mca_lender t) /\
  is_true_revenue (_classify_debit t desc) = is_true_revenue t.
Proof.
  unfold _classify_debit. split; [|split].
  - intros ->. repeat split.
  - intros ->. split; [|split; [|split]].
    + intros H. apply any_in_true in H. now rewrite H.
    + intros Ho Ht. apply any_in_false in Ho. apply any_in_true in Ht.
      now rewrite Ho, Ht.
    + intros Ho Ht. apply any_in_false in Ho, Ht. now rewrite Ho, Ht.
    + destruct (any_in operating_expenses desc);
        [|destruct (any_in transfers_out desc)]; now split.
  - destruct (any_search mca_patterns desc);
      [|destruct (any_in operating_expenses desc);
        [|destruct (any_in transfers_out desc)]]; reflexivity.
Qed.

Lemma classify_debit_precedence_witness :
  category (_classify_debit (Samples.raw DEBIT "x" (-1) 1)
                            "WIRE OUT FOR RENT")
  = Some OPERATING_EXPENSE /\
  category (_classify_debit (Samples.raw DEBIT "x" (-1) 1) "WIRE OUT TO BOB")
  = Some TRANSFER_OUT /\
  category (_classify_debit (Samples.raw DEBIT "x" (-1) 1) "ATM WITHDRAWAL")
  = Some OPERATING_EXPENSE.
Proof.
  destruct (classify_debit_precedence (Samples.raw DEBIT "x" (-1) 1)
                                      "WIRE OUT FOR RENT") as (_ & H1 & _).
  destruct (classify_debit_precedence (Samples.raw DEBIT "x" (-1) 1)
                                      "WIRE OUT TO BOB") as (_ & H2 & _).
  destruct (classify_debit_precedence (Samples.raw DEBIT "x" (-1) 1)
                                      "ATM WITHDRAWAL") as (_ & H3 & _).
  destruct (H1 eq_refl) as (H1' & _).
  destruct (H2 eq_refl) as (_ & H2' & _).
  destruct (H3 eq_refl) as (_ & _ & H3' & _).
  split; [|split].
  - apply H1'. apply any_in_true. reflexivity.
  - apply H2'.
    + apply any_in_false. reflexivity.
    + apply any_in_true. reflexivity.
  - apply H3'; apply any_in_false; reflexivity.
Defined.

(** The category of the branch, by direction. *)
Lemma branch_credit_category (t : Transaction) :
  transaction_type t = CREDIT ->
  category (branch t)
  = Some (if any_in non_true_revenue (PyStr.upper (description t))
          then NON_TRUE_REVENUE else TRUE_REVENUE).
Proof.
  intros Hty. unfold branch, _classify_credit. rewrite Hty.
  destruct (any_in non_true_revenue _); [|destruct (any_in true_revenue _)];
    reflexivity.
Qed.

Lemma branch_debit_category (t : Transaction) :
  transaction_type t = DEBIT ->
  category (branch t)
  = Some (if any_search mca_patterns (PyStr.upper (description t))
          then MCA_PAYMENT
          else if any_in operating_expenses (PyStr.upper (description t))
               then OPERATING_EXPENSE
               else if any_in transfers_out (PyStr.upper (description t))
                    then TRANSFER_OUT else OPERATING_EXPENSE).
Proof.
  intros Hty. unfold branch, _classify_debit. rewrite Hty.
  destruct (any_search mca_patterns _);
    [|destruct (any_in operating_expenses _);
      [|destruct (any_in transfers_out _)]]; reflexivity.
Qed.

Lemma classify_category_cases (t : Transaction) :
  category (classify_transaction t)
  = if _is_nsf_transaction t (PyStr.upper (description t))
    then Some NON_TRUE_REVENUE else category (branch t).
Proof.
  rewrite classify_unfold, branch_nsf.
  now destruct (_is_nsf_transaction t _).
Qed.

(** X2. A transaction ends as NON_TRUE_REVENUE exactly when the NSF
    condition holds (an NSF keyword, a negative balance, or RETURN with a
    positive amount) or it is a credit with a non-true-revenue keyword. *)
Theorem non_true_revenue_iff (t : Transaction) :
  category (classify_transaction t) = Some NON_TRUE_REVENUE <->
  nsf_condition t (PyStr.upper (description t)) \/
  (transaction_type t = CREDIT /\
   keyword_occurs non_true_revenue (PyStr.upper (description t))).
Proof.
  rewrite classify_category_cases, <- is_nsf_true, <- any_in_true.
  destruct (_is_nsf_transaction t _); [tauto|].
  destruct (transaction_type t) eqn:Hty.
  - rewrite (branch_credit_category t Hty).
    destruct (any_in non_true_revenue _); split; try tauto; try congruence.
    intros [H|[_ H]]; discriminate.
  - rewrite (branch_debit_category t Hty).
    split; [|intros [H|[H _]]; discriminate].
    destruct (any_search mca_patterns _);
      [|destruct (any_in operating_expenses _);
        [|destruct (any_in transfers_out _)]]; discriminate.
Qed.

(** X3. A transaction ends as TRUE_REVENUE exactly when it is a credit
    without any non-true-revenue keyword for which the NSF condition does
    not hold; it ends as MCA_PAYMENT exactly when it is a debit with a
    lender signature for which the NSF condition does not hold. *)
Theorem true_revenue_and_mca_iff (t : Transaction) :
  (category (classify_transaction t) = Some TRUE_REVENUE <->
   transaction_type t = CREDIT /\
   ~ keyword_occurs non_true_revenue (PyStr.upper (description t)) /\
   ~ nsf_condition t (PyStr.upper (description t))) /\
  (category (classify_transaction t) = Some MCA_PAYMENT <->
   transaction_type t = DEBIT /\
   any_search mca_patterns (PyStr.upper (description t)) = true /\
   ~ nsf_condition t (PyStr.upper (description t))).
Proof.
  rewrite classify_category_cases, <- is_nsf_true, <- any_in_true.
  destruct (transaction_type t) eqn:Hty;
    [rewrite (branch_credit_category t Hty)
    |rewrite (branch_debit_category t Hty)];
    destruct (_is_nsf_transaction t _);
    repeat match goal with
           | |- context [if ?b then _ else _] => destruct b
           end;
    intuition (try discriminate; try congruence).
Qed.

(** X4. What classification never does. It never changes the date, the
    description, the amount, the balance or the direction. A debit never
    becomes TRUE_REVENUE and keeps its revenue flag; a credit never
    becomes MCA_PAYMENT, OPERATING_EXPENSE or TRANSFER_OUT and keeps its
    MCA flag and its lender. *)
Theorem classify_never (t : Transaction) :
  (date (classify_transaction t) = date t /\
   description (classify_transaction t) = description t /\
   amount (classify_transaction t) = amount t /\
   balance (classify_transaction t) = balance t /\
   transaction_type (classify_transaction t) = transaction_type t) /\
  (transaction_type t = DEBIT ->
   category (classify_transaction t) <> Some TRUE_REVENUE /\
   is_true_revenue (classify_transaction t) = is_true_revenue t) /\
  (transaction_type t = CREDIT ->
   (category (classify_transaction t) = Some TRUE_REVENUE \/
    category (classify_transaction t) = Some NON_TRUE_REVENUE) /\
   is_mca_payment (classify_transaction t) = is_mca_payment t /\
   mca_lender (classify_transaction t) = mca_lender t).
Proof.
  split; [apply classify_input_fields|]. split.
  - intros Hty. split.
    + rewrite classify_category_cases, (branch_debit_category t Hty).
      destruct (_is_nsf_transaction t _); [discriminate|].
      destruct (any_search mca_patterns _);
        [|destruct (any_in operating_expenses _);
          [|destruct (any_in transfers_out _)]]; discriminate.
    + rewrite classify_unfold. unfold branch, _classify_debit. rewrite Hty.
      destruct (any_search mca_patterns _);
        [|destruct (any_in operating_expenses _);
          [|destruct (any_in transfers_out _)]];
        destruct (_is_nsf_transaction _ _); reflexivity.
  - intros Hty. split.
    + rewrite classify_category_cases, (branch_credit_category t Hty).
      destruct (_is_nsf_transaction t _); [now right|].
      destruct (any_in non_true_revenue _); [now right | now left].
    + rewrite classify_unfold. unfold branch, _classify_credit. rewrite Hty.
      destruct (any_in non_true_revenue _);
        [|destruct (any_in true_revenue _)];
        destruct (_is_nsf_transaction _ _); split; reflexivity.
Qed.

Lemma classify_never_witness :
  (category (classify_transaction Samples.scenario2) <> Some TRUE_REVENUE /\
   is_true_revenue (classify_transaction Samples.scenario2)
   = is_true_revenue Samples.scenario2) /\
  ((category (classify_transaction Samples.scenario1) = Some TRUE_REVENUE \/
    category (classify_transaction Samples.scenario1)
    = Some NON_TRUE_REVENUE) /\
   is_mca_payment (classify_transaction Samples.scenario1)
   = is_mca_payment Samples.scenario1 /\
   mca_lender (classify_transaction Samples.scenario1)
   = mca_lender Samples.scenario1).
Proof.
  split.
  - apply (classify_never Samples.scenario2). reflexivity.
  - apply (classify_never Samples.scenario1). reflexivity.
Defined.

End ClassifierMore.

(* ================================================================== *)
(** ** More on the fraud scorer *)
(* ================================================================== *)

Module FraudMore.

Import PyNum FraudDetector FraudSpec FraudFacts.

Lemma credits_of_idem (txs : list Transaction) :
  credits_of (credits_of txs) = credits_of txs.
Proof.
  unfold credits_of. induction txs as [|t txs IH]; [reflexivity|].
  cbn [filter]. destruct (is_credit t) eqn:E; [|exact IH].
  cbn [filter]. now rewrite E, IH.
Qed.

Lemma score_by_checks (txs : list Transaction) :
  calculate_thumbprint_score txs
  = (Z.min (contribution (binary64_round_check txs) 150
            + contribution (identical_check txs) 200
            + contribution (timing_check txs) 100
            + contribution (binary64_pattern_check float_sum txs) 100) 1000,
     (factor (binary64_round_check txs) label_round
      ++ factor (identical_check txs) label_identical
      ++ factor (timing_check txs) label_timing
      ++ factor (binary64_pattern_check float_sum txs) label_pattern)%list).
Proof.
  unfold calculate_thumbprint_score.
  rewrite round_number_correct, identical_deposits_correct,
    unusual_timing_correct, pattern_breaks_correct.
  destruct (binary64_round_check txs), (identical_check txs),
    (timing_check txs), (binary64_pattern_check float_sum txs); reflexivity.
Qed.

(** X5. Debits do not count: the score and the factors of a list are
    those of its credit transactions alone. *)
Theorem score_ignores_debits (txs : list Transaction) :
  calculate_thumbprint_score txs
  = calculate_thumbprint_score (credits_of txs).
Proof.
  rewrite !score_by_checks.
  unfold binary64_round_check, identical_check, timing_check,
    binary64_pattern_check.
  now rewrite credits_of_idem.
Qed.

Lemma count_le_len (A : Type) (p : A -> bool) (l : list A) :
  (count p l <= len l)%Z.
Proof.
  unfold count, len. apply Nat2Z.inj_le. apply filter_length_le.
Qed.

Lemma existsb_none (A : Type) (p : A -> bool) (l : list A) :
  (forall x, In x l -> p x = false) -> existsb p l = false.
Proof.
  intros H. induction l as [|x l IH]; [reflexivity|]. cbn [existsb].
  rewrite (H x) by now left. apply IH. intros y Hy. apply H. now right.
Qed.

(** X6. With fewer than 6 credits no amount can recur more than 5 times
    and the two checks that ask for 10 and 20 credits cannot trigger: the
    score is 100 with the timing factor alone, or 0 with no factor. With
    no credit at all the score is 0. *)
Theorem few_credits_score (txs : list Transaction) :
  (len (credits_of txs) < 6)%Z ->
  calculate_thumbprint_score txs
  = (if _has_unusual_timing txs then (100%Z, [label_timing]) else (0%Z, []))
  /\ (credits_of txs = [] -> calculate_thumbprint_score txs = (0%Z, [])).
Proof.
  intros Hlen.
  assert (Hr : binary64_round_check txs = false).
  { unfold binary64_round_check.
    destruct (Z.leb_spec 10 (len (credits_of txs))); [lia|reflexivity]. }
  assert (Hp : binary64_pattern_check float_sum txs = false).
  { unfold binary64_pattern_check.
    destruct (Z.leb_spec 20 (len (credits_of txs))); [lia|reflexivity]. }
  assert (Hi : identical_check txs = false).
  { unfold identical_check. apply existsb_none. intros a _.
    apply Z.ltb_ge.
    pose proof (count_le_len (dec_eqb a) (map amount (credits_of txs))) as H.
    unfold len in H, Hlen. rewrite length_map in H. lia. }
  rewrite score_by_checks, Hr, Hp, Hi, <- unusual_timing_correct.
  split.
  - now destruct (_has_unusual_timing txs).
  - intros He. rewrite unusual_timing_correct. unfold timing_check.
    now rewrite He.
Qed.

Lemma few_credits_score_witness :
  calculate_thumbprint_score
    [Samples.scenario2; Samples.scenario3]
  = (0%Z, []).
Proof.
  apply (few_credits_score
           [Samples.scenario2; Samples.scenario3]);
    reflexivity.
Defined.

(** A fraction with numerator 0 is not above a positive threshold. *)
Lemma zero_fraction_not_above (n : Z) (threshold : float) :
  PrimFloat.ltb threshold 0 = false ->
  PrimFloat.ltb threshold neg_zero = false ->
  PrimFloat.ltb threshold nan = false ->
  PrimFloat.ltb threshold (true_div 0 n) = false.
Proof.
  intros Hz Hn Hnan. unfold true_div, float_of_ratio.
  destruct n as [|p|p]; cbn [Z2SF SF64div SFdiv xorb SF2Prim]; assumption.
Qed.

(** X7. If no credit is dated on a Saturday or Sunday the timing check
    does not trigger, and if no credit amount is a multiple of 100 the
    round-number check does not trigger, however many credits there
    are. *)
Theorem no_occurrence_no_trigger (txs : list Transaction) :
  ((forall t, In t (credits_of txs) -> on_weekend t = false) ->
   _has_unusual_timing txs = false) /\
  ((forall t, In t (credits_of txs) -> is_round_amount t = false) ->
   _has_round_number_pattern txs = false).
Proof.
  split; intros H.
  - rewrite unusual_timing_correct. unfold timing_check.
    rewrite (count_none _ _ H).
    rewrite zero_fraction_not_above by reflexivity. apply andb_false_r.
  - rewrite round_number_correct. unfold binary64_round_check.
    rewrite <- (count_ext is_round_amount float_remainder_100_is_zero)
      by (intros t _; apply is_round_amount_remainder).
    rewrite (count_none _ _ H).
    rewrite zero_fraction_not_above by reflexivity. apply andb_false_r.
Qed.

Lemma no_occurrence_no_trigger_witness :
  _has_unusual_timing Samples.scenario4 = false.
Proof.
  apply (no_occurrence_no_trigger Samples.scenario4).
  intros t Hin. cbn in Hin.
  repeat (destruct Hin as [<-|Hin]; [reflexivity|]). destruct Hin.
Defined.

(** X8. The score exceeds 500 exactly when all four checks trigger, and
    it is then 550: the heavier of the two confidence penalties of the
    controller is reserved to that case. *)
Theorem score_above_500_iff (txs : list Transaction) :
  ((500 < fst (calculate_thumbprint_score txs))%Z <->
   _has_round_number_pattern txs = true /\
   _has_identical_deposits txs = true /\
   _has_unusual_timing txs = true /\
   _has_pattern_breaks txs = true) /\
  ((500 < fst (calculate_thumbprint_score txs))%Z ->
   calculate_thumbprint_score txs
   = (550%Z, [label_round; label_identical; label_timing; label_pattern])).
Proof.
  unfold calculate_thumbprint_score.
  destruct (_has_round_number_pattern txs), (_has_identical_deposits txs),
    (_has_unusual_timing txs), (_has_pattern_breaks txs);
    cbn; split; try split; intros; try reflexivity; try lia;
    repeat match goal with H : _ /\ _ |- _ => destruct H end;
    try discriminate; auto.
Qed.

Lemma score_above_500_iff_witness :
  calculate_thumbprint_score Samples.all_checks
  = (550%Z, [label_round; label_identical; label_timing; label_pattern]).
Proof.
  apply (score_above_500_iff Samples.all_checks). reflexivity.
Defined.

End FraudMore.

(* ================================================================== *)
(** ** More on the controller *)
(* ================================================================== *)

Module PipelineMore.

Import PyNum MoneyThumbSystem ConfidenceSpec FloatFacts Notions.

(** *** The order of month keys *)

Lemma ascii_compare_trans (a b c : ascii) :
  Ascii.compare a b = Lt -> Ascii.compare b c = Lt -> Ascii.compare a c = Lt.
Proof.
  unfold Ascii.compare. rewrite !N.compare_lt_iff. lia.
Qed.

Lemma string_compare_trans (s1 : string) :
  forall s2 s3,
    String.compare s1 s2 = Lt -> String.compare s2 s3 = Lt ->
    String.compare s1 s3 = Lt.
Proof.
  induction s1 as [|a s1 IH]; intros [|b s2] [|c s3]; cbn; try congruence.
  destruct (Ascii.compare a b) eqn:Eab; try discriminate;
    destruct (Ascii.compare b c) eqn:Ebc; try discriminate.
  - apply Ascii.compare_eq_iff in Eab, Ebc. subst.
    rewrite (proj2 (N.compare_eq_iff _ _) eq_refl : Ascii.compare c c = Eq).
    apply IH.
  - apply Ascii.compare_eq_iff in Eab. subst. rewrite Ebc. reflexivity.
  - apply Ascii.compare_eq_iff in Ebc. subst. rewrite Eab. reflexivity.
  - rewrite (ascii_compare_trans _ _ _ Eab Ebc). reflexivity.
Qed.

Lemma insert_sorted_In (k : string) (l : list string) (x : string) :
  In x (insert_sorted k l) <-> x = k \/ In x l.
Proof.
  induction l as [|k' l IH]; cbn [insert_sorted].
  - cbn. intuition.
  - destruct (String.compare k k') eqn:E.
    + apply String.compare_eq_iff in E. subst. cbn. intuition.
    + cbn. intuition.
    + cbn [In]. rewrite IH. intuition.
Qed.

Lemma insert_sorted_ascending (k : string) (l : list string) :
  ascending l -> ascending (insert_sorted k l).
Proof.
  induction l as [|k' l IH]; cbn [insert_sorted ascending].
  - intros _. split; [intros x []|exact I].
  - intros [Hk' Hl]. destruct (String.compare k k') eqn:E.
    + now split.
    + cbn [ascending]. split; [|now split].
      intros x [<-|Hx]; [exact E|].
      apply string_compare_trans with k'; [exact E | now apply Hk'].
    + cbn [ascending]. split; [|now apply IH].
      intros x Hx. apply insert_sorted_In in Hx. destruct Hx as [->|Hx].
      * rewrite String.compare_antisym, E. reflexivity.
      * now apply Hk'.
Qed.

Lemma sorted_set_acc (keys : list string) :
  forall acc,
    ascending acc ->
    ascending (fold_left (fun acc k => insert_sorted k acc) keys acc) /\
    forall x, In x (fold_left (fun acc k => insert_sorted k acc) keys acc)
              <-> In x keys \/ In x acc.
Proof.
  induction keys as [|k keys IH]; intros acc Hacc; cbn [fold_left].
  - split; [exact Hacc|]. cbn. intuition.
  - destruct (IH (insert_sorted k acc) (insert_sorted_ascending k acc Hacc))
      as [H1 H2].
    split; [exact H1|]. intros x. rewrite H2, insert_sorted_In. cbn.
    intuition.
Qed.

(** [sorted(set(keys))] is in strictly ascending order and holds the keys,
    each once. *)
Lemma sorted_set_spec (keys : list string) :
  ascending (sorted_set keys) /\
  forall x, In x (sorted_set keys) <-> In x keys.
Proof.
  destruct (sorted_set_acc keys [] I) as [H1 H2].
  split; [exact H1|]. intros x. rewrite (H2 x). cbn. intuition.
Qed.

(** *** Loops over a traced call *)

Lemma for_each_call (A B : Type) (c : Call) (f : A -> B) (xs : list A) :
  for_each (fun x => call c (f x)) xs = (calls c (List.length xs), map f xs).
Proof.
  induction xs as [|x xs IH]; [reflexivity|].
  cbn [for_each]. rewrite IH. unfold bind, call, ret, calls.
  cbn. now rewrite app_nil_r.
Qed.

Lemma match_nonempty (A B : Type) (l : list A) (a b : B) :
  l <> [] -> match l with [] => a | _ :: _ => b end = b.
Proof. destruct l; [congruence | reflexivity]. Qed.

Lemma nil_or_not (A : Type) (l : list A) : l = [] \/ l <> [].
Proof. destruct l; [now left | right; discriminate]. Qed.

Lemma cashflow_call (analyze : option MonthData -> CashFlowMetrics)
      (monthly : list MonthlyStats) (positions : list MCAPosition) :
  _calculate_overall_cashflow analyze monthly positions
  = ([CallCashflow],
     snd (_calculate_overall_cashflow analyze monthly positions)).
Proof. unfold _calculate_overall_cashflow. now destruct monthly. Qed.

Lemma insert_sorted_length (k : string) (l : list string) :
  (List.length (insert_sorted k l) <= S (List.length l))%nat.
Proof.
  induction l as [|k' l IH]; cbn [insert_sorted]; [cbn; lia|].
  destruct (String.compare k k'); cbn [List.length] in *; lia.
Qed.

Lemma sorted_set_length (keys : list string) :
  (List.length (sorted_set keys) <= List.length keys)%nat.
Proof.
  unfold sorted_set.
  assert (H : forall acc,
             (List.length (fold_left (fun acc k => insert_sorted k acc) keys acc)
              <= List.length keys + List.length acc)%nat).
  { induction keys as [|k keys IH]; intros acc; cbn [fold_left List.length].
    - lia.
    - specialize (IH (insert_sorted k acc)).
      pose proof (insert_sorted_length k acc). lia. }
  specialize (H []). cbn [List.length] in H. lia.
Qed.

Section Run.

Variable process_statement : string -> OCRResult.
Variable detect_positions : list Transaction -> list MCAPosition.
Variable calculate_monthly_stats : list Transaction -> string -> MonthlyStats.
Variable calculate_metrics :
  list MonthlyStats -> list Transaction -> list MCAPosition ->
  UnderwritingMetrics.
Variable analyze_monthly_cashflow : option MonthData -> CashFlowMetrics.
Variable start_time end_time : float.
Variable pdf_path : string.

Let run : Traced MoneyThumbResponse :=
  process_bank_statement process_statement detect_positions
    calculate_monthly_stats calculate_metrics analyze_monthly_cashflow
    start_time end_time pdf_path.

Let raw : list Transaction := ocr_transactions (process_statement pdf_path).

Let classified : list Transaction :=
  map TransactionClassifier.classify_transaction raw.

Let months : list string :=
  sorted_set (map (fun t => month_key (date t)) classified).

Let monthly : list MonthlyStats :=
  map (calculate_monthly_stats classified) months.

Let score : Z := fst (FraudDetector.calculate_thumbprint_score classified).

(** X9. The monthly summaries are asked for the months of the given
    transactions: each month key once, in strictly ascending order. With
    no transaction nothing is asked. *)
Theorem monthly_summaries_months (txs : list Transaction) :
  exists keys,
    _calculate_monthly_summaries calculate_monthly_stats txs
    = (calls CallMonthlyStats (List.length keys),
       map (calculate_monthly_stats txs) keys) /\
    ascending keys /\
    (forall k, In k keys <-> exists t, In t txs /\ month_key (date t) = k).
Proof.
  exists (sorted_set (map (fun t => month_key (date t)) txs)).
  destruct (sorted_set_spec (map (fun t => month_key (date t)) txs))
    as [Hasc Hin].
  split; [|split; [exact Hasc|]].
  - unfold _calculate_monthly_summaries. destruct txs as [|t txs].
    + reflexivity.
    + apply for_each_call.
  - intros k. rewrite Hin, in_map_iff. split.
    + intros (t & He & Ht). exists t. auto.
    + intros (t & Ht & He). exists t. auto.
Qed.

(** The whole run on a statement with transactions. *)
Lemma run_nonempty :
  raw <> [] ->
  run
  = ([CallOCR] ++ calls CallClassify (List.length raw)
     ++ [CallDetectPositions] ++ calls CallMonthlyStats (List.length months)
     ++ [CallMetrics; CallFraudScore; CallCashflow; CallConfidence],
     mkMoneyThumbResponse
       (ocr_account (process_statement pdf_path))
       classified monthly (detect_positions classified)
       (set_fraud_score score
          (calculate_metrics monthly classified (detect_positions classified)))
       (snd (_calculate_overall_cashflow analyze_monthly_cashflow monthly
               (detect_positions classified)))
       (_calculate_final_confidence
          (ocr_confidence_score (process_statement pdf_path)) classified
          score)
       (end_time - start_time)%float)%list.
Proof.
  intros Hne. unfold run, process_bank_statement.
  unfold bind at 1. unfold call at 1. cbv beta iota zeta.
  change (ocr_transactions (process_statement pdf_path)) with raw.
  rewrite (match_nonempty _ _ Hne).
  rewrite for_each_call. fold classified.
  assert (Hc : classified <> []).
  { unfold classified. intros H. apply map_eq_nil in H. contradiction. }
  assert (Hm : _calculate_monthly_summaries calculate_monthly_stats classified
               = (calls CallMonthlyStats (List.length months), monthly)).
  { unfold _calculate_monthly_summaries.
    rewrite (match_nonempty _ _ Hc). apply for_each_call. }
  cbn [bind call]. rewrite Hm.
  rewrite (surjective_pairing
             (FraudDetector.calculate_thumbprint_score classified)).
  fold score. cbn [bind call].
  rewrite cashflow_call. cbn [bind call ret app]. reflexivity.
Qed.

(** X10. On a statement with transactions the response lists the
    classified raw transactions one for one, in the order of the
    statement, with date, description, amount, balance and direction as
    the OCR engine gave them, and the classifier is called once for each
    of them. *)
Theorem run_classifies_one_for_one :
  raw <> [] ->
  transactions (snd run) = classified /\
  List.length (transactions (snd run)) = List.length raw /\
  map date (transactions (snd run)) = map date raw /\
  map description (transactions (snd run)) = map description raw /\
  map amount (transactions (snd run)) = map amount raw /\
  map balance (transactions (snd run)) = map balance raw /\
  map transaction_type (transactions (snd run)) = map transaction_type raw /\
  List.length (filter (fun c => match c with CallClassify => true | _ => false end)
                      (fst run)) = List.length raw.
Proof.
  intros Hne. rewrite (run_nonempty Hne). cbv beta iota delta [fst snd].
  cbn [transactions].
  unfold classified. rewrite length_map, !map_map.
  repeat split;
    try (apply map_ext; intros t;
         apply (ClassifierFacts.classify_input_fields t)).
  assert (H1 : forall n,
             filter (fun c => match c with CallClassify => true | _ => false end)
                    (repeat CallClassify n) = repeat CallClassify n).
  { induction n as [|n IH]; [reflexivity|]. cbn. now rewrite IH. }
  assert (H2 : forall n,
             filter (fun c => match c with CallClassify => true | _ => false end)
                    (repeat CallMonthlyStats n) = []).
  { induction n as [|n IH]; [reflexivity|]. cbn. exact IH. }
  unfold calls. rewrite !filter_app, H1, H2. cbn [filter app]. rewrite app_nil_r.
  apply repeat_length.
Qed.

(** X11. The fraud score of the response is the score of the scorer on
    the classified transactions, whatever the metrics calculator put in
    that field; it is at most 550; the other metrics are those of the
    calculator. *)
Theorem run_injects_fraud_score :
  raw <> [] ->
  let computed :=
    calculate_metrics monthly classified (detect_positions classified) in
  fraud_score (metrics (snd run)) = score /\
  (0 <= fraud_score (metrics (snd run)) <= 550)%Z /\
  metrics (snd run) = set_fraud_score score computed /\
  average_monthly_revenue (metrics (snd run))
  = average_monthly_revenue computed /\
  nsf_rate (metrics (snd run)) = nsf_rate computed.
Proof.
  intros Hne. cbv zeta. rewrite (run_nonempty Hne).
  cbn [snd metrics fraud_score set_fraud_score average_monthly_revenue
           nsf_rate].
  repeat split; unfold score.
  - unfold FraudDetector.calculate_thumbprint_score, FraudDetector.add_factor.
    destruct (FraudDetector._has_round_number_pattern classified),
      (FraudDetector._has_identical_deposits classified),
      (FraudDetector._has_unusual_timing classified),
      (FraudDetector._has_pattern_breaks classified); cbn; lia.
  - unfold FraudDetector.calculate_thumbprint_score, FraudDetector.add_factor.
    destruct (FraudDetector._has_round_number_pattern classified),
      (FraudDetector._has_identical_deposits classified),
      (FraudDetector._has_unusual_timing classified),
      (FraudDetector._has_pattern_breaks classified); cbn; lia.
Qed.

(** X12. Every run, with or without transactions, returns a confidence
    between 0 and 1. *)
Theorem run_confidence_range :
  PrimFloat.leb 0 (confidence_score (snd run)) = true /\
  PrimFloat.leb (confidence_score (snd run)) 1 = true.
Proof.
  destruct (nil_or_not raw) as [He|Hne].
  - unfold raw in He.
    split; unfold run, process_bank_statement, bind, call;
      cbv beta iota zeta; rewrite He; reflexivity.
  - rewrite (run_nonempty Hne). cbn [snd confidence_score].
    rewrite PipelineSpec.final_confidence_unfold. apply clamp_range.
Qed.

(** X13. On a statement with transactions each stage runs, in the order
    OCR, classification (once for each transaction), MCA detection,
    monthly statistics (once for each month), metrics, fraud score, cash
    flow, confidence. *)
Theorem run_stage_order :
  raw <> [] ->
  fst run
  = ([CallOCR] ++ calls CallClassify (List.length raw)
     ++ [CallDetectPositions] ++ calls CallMonthlyStats (List.length months)
     ++ [CallMetrics; CallFraudScore; CallCashflow; CallConfidence])%list
  /\ (1 <= List.length months <= List.length raw)%nat.
Proof.
  intros Hne. rewrite (run_nonempty Hne). split; [reflexivity|].
  assert (Hlen : List.length classified = List.length raw)
    by (unfold classified; apply length_map).
  split.
  - assert (Hc : exists t, In t classified).
    { destruct classified as [|t l] eqn:E.
      - cbn in Hlen. destruct raw; [congruence | discriminate].
      - exists t. now left. }
    destruct Hc as (t & Ht).
    assert (Hin : In (month_key (date t)) months).
    { unfold months. apply sorted_set_spec.
      apply (in_map (fun t => month_key (date t))). exact Ht. }
    destruct months; [destruct Hin | cbn; lia].
  - unfold months.
    pose proof (sorted_set_length
                  (map (fun t => month_key (date t)) classified)) as H.
    rewrite length_map in H. lia.
Qed.

End Run.

Lemma sample_statement_nonempty :
  ocr_transactions (Samples.statement_ocr "statement.pdf") <> [].
Proof. discriminate. Qed.

Lemma run_classifies_one_for_one_witness :
  transactions
    (snd (process_bank_statement Samples.statement_ocr Samples.some_positions
            Samples.some_stats Samples.some_metrics Samples.some_cashflow
            10 12 "statement.pdf"))
  = map TransactionClassifier.classify_transaction
        [Samples.scenario1; Samples.scenario2; Samples.scenario3].
Proof.
  destruct (run_classifies_one_for_one Samples.statement_ocr
              Samples.some_positions Samples.some_stats Samples.some_metrics
              Samples.some_cashflow 10 12 "statement.pdf"
              sample_statement_nonempty) as (H & _).
  exact H.
Defined.

Lemma run_injects_fraud_score_witness :
  fraud_score
    (metrics
       (snd (process_bank_statement Samples.statement_ocr
               Samples.some_positions Samples.some_stats Samples.some_metrics
               Samples.some_cashflow 10 12 "statement.pdf")))
  = fst (FraudDetector.calculate_thumbprint_score
           (map TransactionClassifier.classify_transaction
                [Samples.scenario1; Samples.scenario2; Samples.scenario3])).
Proof.
  destruct (run_injects_fraud_score Samples.statement_ocr
              Samples.some_positions Samples.some_stats Samples.some_metrics
              Samples.some_cashflow 10 12 "statement.pdf"
              sample_statement_nonempty) as (H & _).
  exact H.
Defined.

Lemma run_stage_order_witness :
  fst (process_bank_statement Samples.statement_ocr Samples.some_positions
         Samples.some_stats Samples.some_metrics Samples.some_cashflow
         10 12 "statement.pdf")
  = [CallOCR; CallClassify; CallClassify; CallClassify; CallDetectPositions;
     CallMonthlyStats; CallMetrics; CallFraudScore; CallCashflow;
     CallConfidence].
Proof.
  destruct (run_stage_order Samples.statement_ocr
              Samples.some_positions Samples.some_stats Samples.some_metrics
              Samples.some_cashflow 10 12 "statement.pdf"
              sample_statement_nonempty) as (H & _).
  exact H.
Defined.

End PipelineMore.

(* ================================================================== *)
(** ** The report *)
(* ================================================================== *)

Module ReportFacts.

Import PyNum MoneyThumbSystem JsonReport Notions.

Lemma occurs_app (c : ascii) (s1 s2 : string) :
  TransactionClassifier.occurs c (s1 ++ s2)
  <-> TransactionClassifier.occurs c s1 \/ TransactionClassifier.occurs c s2.
Proof.
  induction s1 as [|c1 s1 IH]; cbn; [tauto|]. rewrite IH. tauto.
Qed.

(** The pieces of a split: a single piece is the whole text, which has no
    separator; otherwise the last piece has no separator and follows the
    last separator of the text. *)
Lemma split_on_pieces (sep : ascii) (s : string) :
  exists piece pieces,
    split_on sep s = piece :: pieces /\
    (pieces = [] -> piece = s /\ ~ TransactionClassifier.occurs sep s) /\
    (pieces <> [] ->
     ~ TransactionClassifier.occurs sep (last pieces EmptyString) /\
     exists pre, s = pre ++ String sep (last pieces EmptyString)).
Proof.
  induction s as [|c s IH].
  - exists EmptyString, []. split; [reflexivity|]. split.
    + intros _. split; [reflexivity|]. cbn. tauto.
    + congruence.
  - destruct IH as (piece & pieces & Hs & H1 & H2). cbn [split_on].
    destruct (Ascii.eqb c sep) eqn:Ec.
    + apply Ascii.eqb_eq in Ec. subst c.
      exists EmptyString, (split_on sep s). split; [reflexivity|].
      rewrite Hs. split; [discriminate|]. intros _.
      destruct pieces as [|p ps].
      * destruct (H1 eq_refl) as [-> Hn]. cbn [last].
        split; [exact Hn|]. exists EmptyString. reflexivity.
      * assert (Hne : p :: ps <> []) by discriminate.
        destruct (H2 Hne) as (Hn & pre & Hpre).
        change (last (piece :: p :: ps) EmptyString)
          with (last (p :: ps) EmptyString).
        split; [exact Hn|]. exists (String sep pre). cbn [append]. now f_equal.
    + rewrite Hs. exists (String c piece), pieces.
      split; [reflexivity|]. split.
      * intros He. destruct (H1 He) as [-> Hn]. split; [reflexivity|].
        cbn. intros [Hc|Hc]; [|tauto]. subst c.
        rewrite Ascii.eqb_refl in Ec. discriminate.
      * intros Hne. destruct (H2 Hne) as (Hn & pre & Hpre).
        split; [exact Hn|]. exists (String c pre). cbn [append]. now f_equal.
Qed.

(** What [s.split(sep)[-1]] is. *)
Lemma last_piece_spec (sep : ascii) (s : string) :
  let piece := last (split_on sep s) EmptyString in
  ~ TransactionClassifier.occurs sep piece /\
  (piece = s \/ exists pre, s = pre ++ String sep piece).
Proof.
  cbv zeta. destruct (split_on_pieces sep s) as (p & ps & Hs & H1 & H2).
  rewrite Hs. destruct ps as [|p' ps].
  - destruct (H1 eq_refl) as [-> Hn]. cbn. tauto.
  - assert (Hne : p' :: ps <> []) by discriminate.
    destruct (H2 Hne) as (Hn & pre & Hpre).
    change (last (p :: p' :: ps) EmptyString)
      with (last (p' :: ps) EmptyString).
    split; [exact Hn|]. right. exists pre. exact Hpre.
Qed.

(** X14. The last-four field of the report is the part of the account
    number after its last asterisk: it has no asterisk, and the account
    number is either that text itself or some text, an asterisk and that
    text. An account number without an asterisk is reported whole. *)
Theorem report_account_last4 (response : MoneyThumbResponse) :
  let number := account_number (account response) in
  let last4 := report_account_last4 (generate_json_report response) in
  ~ TransactionClassifier.occurs "*"%char last4 /\
  (last4 = number \/ exists pre, number = pre ++ String "*"%char last4) /\
  (~ TransactionClassifier.occurs "*"%char number -> last4 = number).
Proof.
  cbv zeta. cbn [generate_json_report report_account_last4].
  destruct (last_piece_spec "*"%char (account_number (account response)))
    as (Hn & Hc).
  split; [exact Hn|]. split; [exact Hc|].
  intros Hno. destruct Hc as [Hc|(pre & Hpre)]; [exact Hc|].
  exfalso. apply Hno. rewrite Hpre. apply occurs_app. right. now left.
Qed.

Lemma filter_length_mono (A : Type) (p q : A -> bool) (l : list A) :
  (forall x, In x l -> p x = true -> q x = true) ->
  (List.length (filter p l) <= List.length (filter q l))%nat.
Proof.
  induction l as [|x l IH]; intros H; [cbn; lia|].
  assert (IH' := IH (fun y Hy => H y (or_intror Hy))).
  cbn [filter]. destruct (p x) eqn:Ep.
  - rewrite (H x (or_introl eq_refl) Ep). cbn [List.length]. lia.
  - destruct (q x); cbn [List.length]; lia.
Qed.

(** A description that mentions NSF in any letter case is classified
    NON_TRUE_REVENUE. *)
Lemma mentions_nsf_classified (raw : Transaction) :
  mentions_nsf (TransactionClassifier.classify_transaction raw) = true ->
  has_category NON_TRUE_REVENUE
    (TransactionClassifier.classify_transaction raw) = true.
Proof.
  unfold mentions_nsf, has_category.
  destruct (ClassifierFacts.classify_input_fields raw) as (_ & Hd & _).
  rewrite Hd. intros Hm.
  rewrite ClassifierMore.classify_category_cases.
  assert (Hn : TransactionClassifier._is_nsf_transaction raw
                 (PyStr.upper (description raw)) = true).
  { apply ClassifierSpec.is_nsf_true. left. exists "NSF".
    split; [now left | exact Hm]. }
  now rewrite Hn.
Qed.

(** X15. The NSF count of the report lies between 0 and the number of
    transactions, and when the transactions of the response come from the
    classifier, every transaction it counts is one of category
    NON_TRUE_REVENUE: the count is at most the number of those. *)
Theorem report_nsf_count_bound (response : MoneyThumbResponse) :
  (0 <= report_nsf_count (generate_json_report response)
   <= FraudDetector.len (transactions response))%Z /\
  ((forall t, In t (transactions response) ->
              exists raw, t = TransactionClassifier.classify_transaction raw) ->
   (report_nsf_count (generate_json_report response)
    <= FraudSpec.count (has_category NON_TRUE_REVENUE)
                       (transactions response))%Z).
Proof.
  cbn [generate_json_report report_nsf_count].
  unfold FraudDetector.len, FraudSpec.count. split.
  - pose proof (filter_length_le mentions_nsf (transactions response)). lia.
  - intros Hc. apply Nat2Z.inj_le. apply filter_length_mono.
    intros t Hin Hm. destruct (Hc t Hin) as (raw & ->).
    now apply mentions_nsf_classified.
Qed.

Lemma report_nsf_count_bound_witness :
  (report_nsf_count
     (generate_json_report
        (snd (process_bank_statement Samples.statement_ocr
                Samples.some_positions Samples.some_stats
                Samples.some_metrics Samples.some_cashflow
                10 12 "statement.pdf")))
   <= FraudSpec.count (has_category NON_TRUE_REVENUE)
        (transactions
           (snd (process_bank_statement Samples.statement_ocr
                   Samples.some_positions Samples.some_stats
                   Samples.some_metrics Samples.some_cashflow
                   10 12 "statement.pdf"))))%Z.
Proof.
  apply (report_nsf_count_bound
           (snd (process_bank_statement Samples.statement_ocr
                   Samples.some_positions Samples.some_stats
                   Samples.some_metrics Samples.some_cashflow
                   10 12 "statement.pdf"))).
  intros t Hin.
  change (In t (map TransactionClassifier.classify_transaction
                    [Samples.scenario1; Samples.scenario2;
                     Samples.scenario3])) in Hin.
  apply in_map_iff in Hin. destruct Hin as (raw & <- & _). now exists raw.
Defined.

(** X16. The report of a run on a statement without transactions: every
    total is zero, both lists are empty, the confidence is 0.0, and the
    bank and the period are those of the account. *)
Theorem empty_statement_report
        (process_statement : string -> OCRResult)
        (detect_positions : list Transaction -> list MCAPosition)
        (calculate_monthly_stats : list Transaction -> string -> MonthlyStats)
        (calculate_metrics :
           list MonthlyStats -> list Transaction -> list MCAPosition ->
           UnderwritingMetrics)
        (analyze_monthly_cashflow : option MonthData -> CashFlowMetrics)
        (start_time end_time : float) (pdf_path : string) :
  ocr_transactions (process_statement pdf_path) = [] ->
  let report :=
    generate_json_report
      (snd (process_bank_statement process_statement detect_positions
              calculate_monthly_stats calculate_metrics
              analyze_monthly_cashflow start_time end_time pdf_path)) in
  report_bank report = bank_name (ocr_account (process_statement pdf_path)) /\
  report_period_start report
  = isoformat (statement_start (ocr_account (process_statement pdf_path))) /\
  report_average_monthly_revenue report = 0%float /\
  report_true_revenue_total report = 0%float /\
  report_gross_deposits report = 0%float /\
  report_mca_positions_detected report = 0%Z /\
  report_total_mca_payments report = 0%float /\
  report_days_negative report = 0%Z /\
  report_nsf_count report = 0%Z /\
  report_fraud_score report = 0%Z /\
  report_mca_positions report = [] /\
  report_monthly_summary report = [] /\
  report_confidence_score report = 0%float.
Proof.
  intros He. cbv zeta.
  unfold process_bank_statement, bind, call. cbv beta iota zeta.
  rewrite He. cbn. repeat split.
Qed.

Lemma empty_statement_report_witness :
  report_nsf_count
    (generate_json_report
       (snd (process_bank_statement Samples.empty_ocr Samples.some_positions
               Samples.some_stats Samples.some_metrics Samples.some_cashflow
               10 12 "statement.pdf"))) = 0%Z.
Proof.
  apply (empty_statement_report Samples.empty_ocr Samples.some_positions
           Samples.some_stats Samples.some_metrics Samples.some_cashflow
           10 12 "statement.pdf" eq_refl).
Defined.

End ReportFacts.

(* ================================================================== *)
(** ** The lender name *)
(* ================================================================== *)

Module LenderFacts.

Import Re TransactionClassifier ReFacts Notions.

(** *** Texts without a visible character *)

Lemma split_aux_blank (s : string) :
  has_nonspace s = false -> PyStr.split_aux [] s = [].
Proof.
  induction s as [|c s IH]; [reflexivity|].
  cbn [has_nonspace PyStr.split_aux]. intros H.
  apply orb_false_iff in H. destruct H as [Hc Hs].
  apply negb_false_iff in Hc. rewrite Hc. cbn [app]. now apply IH.
Qed.

Lemma first_capture_blank (table : list pattern) (s : string) :
  forallb asks_nonspace table = true ->
  has_nonspace s = false ->
  first_capture table s = None.
Proof.
  intros Hall Hs. induction table as [|p table IH]; [reflexivity|].
  cbn [forallb] in Hall. apply andb_prop in Hall. destruct Hall as [Hp Hall].
  cbn [first_capture]. destruct (search p s) as [r|] eqn:E; [|now apply IH].
  rewrite (search_has_nonspace _ _ Hp E) in Hs. discriminate.
Qed.

(** X17. The extraction of the lender name returns no name exactly for
    the descriptions that are empty or made of white space only. *)
Theorem extract_lender_name_none_iff (description : string) :
  _extract_lender_name description = None <->
  has_nonspace description = false.
Proof.
  unfold _extract_lender_name. split.
  - intros H. destruct (has_nonspace description) eqn:Hn; [|reflexivity].
    exfalso.
    destruct (first_capture lender_patterns description) as [r|] eqn:E.
    + apply lender_patterns_capture in E. congruence.
    + pose proof (split_nonempty _ Hn) as Hs.
      destruct (PyStr.split description) as [|w ws]; [tauto|].
      cbn [firstn] in H. discriminate.
  - intros Hn.
    rewrite (first_capture_blank lender_patterns description eq_refl Hn).
    unfold PyStr.split. now rewrite (split_aux_blank _ Hn).
Qed.

(** *** Matching on one line *)

Lemma between_all (from : string) : between from EmptyString = from.
Proof.
  unfold between. cbn [String.length]. rewrite Nat.sub_0_r.
  induction from as [|c s IH]; [reflexivity|]. cbn. now rewrite IH.
Qed.

Lemma single_line_skip (n : nat) :
  forall s, single_line s = true -> single_line (skip n s) = true.
Proof.
  induction n as [|n IH]; intros [|c s] H; cbn [skip]; try exact H.
  cbn [single_line] in H. apply andb_prop in H. now apply IH.
Qed.

(** A run of [.] on one line can reach the end of the text. *)
Lemma greedy_dot_end (R : Type) (k : string -> option R) (r : R) (s : string) :
  single_line s = true -> k EmptyString = Some r ->
  greedy Dot k s = Some r.
Proof.
  intros Hs Hk. induction s as [|c s IH]; [exact Hk|].
  cbn [single_line] in Hs. apply andb_prop in Hs. destruct Hs as [Hc Hs].
  cbn [greedy atom_matches]. rewrite Hc. now rewrite (IH Hs).
Qed.

(** A literal at the head of a pattern asks for that text, up to case, at
    the head of the input. *)
Lemma match_here_lit (x : string) (rest : pattern) :
  forall s opened grp,
    match_here (lit x ++ rest)%list s opened grp
    = if istartswith x s
      then match_here rest (skip (String.length x) s) opened grp
      else None.
Proof.
  induction x as [|a x IH]; intros s opened grp; [reflexivity|].
  cbn [lit app match_here istartswith String.length skip atom_matches].
  destruct s as [|c s]; [reflexivity|].
  destruct (Ascii.eqb (PyStr.lower_char a) (PyStr.lower_char c));
    [apply IH | reflexivity].
Qed.

(** The end of a capturing pattern, a run of [.] and the closing
    parenthesis, on one line: the group closes at the end of the text. *)
Lemma match_here_tail (s from : string) (grp : option string) :
  single_line s = true ->
  match_here [Star Dot; Close] s (Some from) grp = Some (Some from).
Proof.
  intros Hs. cbn [match_here]. apply greedy_dot_end; [exact Hs|].
  cbn [match_here]. now rewrite between_all.
Qed.

(** A run of [.] followed by a test that succeeds on the tails where [x]
    starts: it succeeds exactly when [x] occurs. *)
Lemma greedy_dot_find (R : Type) (k : string -> option R) (v : R)
      (x s : string) :
  single_line s = true ->
  (forall rest, single_line rest = true ->
                k rest = if istartswith x rest then Some v else None) ->
  greedy Dot k s = if icontains x s then Some v else None.
Proof.
  intros Hs Hk. induction s as [|c s IH].
  - cbn [greedy icontains]. rewrite orb_false_r. now apply Hk.
  - pose proof Hs as Hs'. cbn [single_line] in Hs'.
    apply andb_prop in Hs'. destruct Hs' as [Hc Hs'].
    cbn [greedy atom_matches icontains]. rewrite Hc, (IH Hs').
    destruct (icontains x s).
    + now rewrite orb_true_r.
    + rewrite orb_false_r. now apply Hk.
Qed.

Lemma group_shape (x : string) :
  group (seq [dotstar; lit x; dotstar])
  = Open :: Star Dot :: (lit x ++ [Star Dot; Close])%list.
Proof.
  unfold group, seq, dotstar. cbn [List.concat app].
  now rewrite <- app_assoc.
Qed.

(** The pattern that captures [x] between two runs of [.], at the head of
    a one-line text: it matches exactly when [x] occurs, and group 1 is
    then the whole text. *)
Lemma match_here_whole_line (x s : string) :
  single_line s = true ->
  match_here (group (seq [dotstar; lit x; dotstar])) s None None
  = if icontains x s then Some (Some s) else None.
Proof.
  intros Hs. rewrite group_shape. cbn [match_here].
  apply greedy_dot_find; [exact Hs|]. intros rest Hr.
  rewrite match_here_lit.
  destruct (istartswith x rest); [|reflexivity].
  apply match_here_tail. now apply single_line_skip.
Qed.

Lemma search_whole_line_none (x s : string) :
  single_line s = true -> icontains x s = false ->
  search (group (seq [dotstar; lit x; dotstar])) s = None.
Proof.
  induction s as [|c s IH]; intros Hs Hx.
  - cbn [search]. rewrite (match_here_whole_line x EmptyString Hs), Hx.
    reflexivity.
  - cbn [search]. rewrite (match_here_whole_line x (String c s) Hs), Hx.
    cbn [single_line] in Hs. apply andb_prop in Hs.
    cbn [icontains] in Hx. apply orb_false_iff in Hx. now apply IH.
Qed.

Lemma search_whole_line (x s : string) :
  single_line s = true ->
  search (group (seq [dotstar; lit x; dotstar])) s
  = if icontains x s then Some (Some s) else None.
Proof.
  intros Hs. destruct (icontains x s) eqn:Hx.
  - destruct s as [|c s]; cbn [search];
      now rewrite (match_here_whole_line x _ Hs), Hx.
  - now apply search_whole_line_none.
Qed.

(** X18. On a description of one line in which CAPITAL, FINANCIAL,
    FUNDING or ADVANCE occurs, in any letter case, the lender name is the
    whole description with the white space at its ends removed. *)
Theorem extract_lender_name_whole_line (description : string) :
  single_line description = true ->
  icontains "CAPITAL" description || icontains "FINANCIAL" description
  || icontains "FUNDING" description || icontains "ADVANCE" description
  = true ->
  _extract_lender_name description = Some (PyStr.strip description).
Proof.
  intros Hs Hany. unfold _extract_lender_name, lender_patterns.
  cbn [first_capture]. rewrite !(search_whole_line _ _ Hs).
  destruct (icontains "CAPITAL" description); [reflexivity|].
  destruct (icontains "FINANCIAL" description); [reflexivity|].
  destruct (icontains "FUNDING" description); [reflexivity|].
  destruct (icontains "ADVANCE" description); [reflexivity|discriminate].
Qed.

Lemma extract_lender_name_whole_line_witness :
  _extract_lender_name "  RAPID ADVANCE 0042 " = Some "RAPID ADVANCE 0042".
Proof.
  apply (extract_lender_name_whole_line "  RAPID ADVANCE 0042 ");
    reflexivity.
Defined.

(** *** Lender signatures of one word *)

Lemma greedy_fallback (R : Type) (a : atom) (k : string -> option R)
      (s : string) (r : R) :
  k s = Some r -> exists r', greedy a k s = Some r'.
Proof.
  intros Hk. destruct s as [|c s]; cbn [greedy]; [eauto|].
  destruct (atom_matches a c); [|eauto].
  destruct (greedy a k s); eauto.
Qed.

Lemma greedy_always (R : Type) (a : atom) (v : R) (s : string) :
  greedy a (fun _ => Some v) s = Some v.
Proof.
  induction s as [|c s IH]; [reflexivity|]. cbn [greedy].
  rewrite IH. now destruct (atom_matches a c).
Qed.

Lemma word_shape (x : string) :
  seq [dotstar; lit x; dotstar] = Star Dot :: (lit x ++ [Star Dot])%list.
Proof. reflexivity. Qed.

(** The pattern of [x] between two runs of [.] is found in every text in
    which [x] occurs, up to case. *)
Lemma search_word (x s : string) :
  icontains x s = true ->
  exists r, search (seq [dotstar; lit x; dotstar]) s = Some r.
Proof.
  rewrite word_shape.
  assert (Hhere : forall t, istartswith x t = true ->
            exists r, match_here (Star Dot :: (lit x ++ [Star Dot])%list)
                                 t None None = Some r).
  { intros t Ht. cbn [match_here]. apply greedy_fallback with None.
    rewrite match_here_lit, Ht. cbn [match_here]. apply greedy_always. }
  induction s as [|c s IH]; cbn [icontains search]; intros H.
  - rewrite orb_false_r in H. destruct (Hhere _ H) as (r & ->). eauto.
  - destruct (istartswith x (String c s)) eqn:E.
    + destruct (Hhere _ E) as (r & ->). eauto.
    + cbn [orb] in H.
      destruct (match_here _ (String c s) None None); [eauto | now apply IH].
Qed.

Lemma lower_upper_char (c : ascii) :
  PyStr.lower_char (PyStr.upper_char c) = PyStr.lower_char c.
Proof. destruct c as [[] [] [] [] [] [] [] []]; reflexivity. Qed.

Lemma istartswith_upper (x : string) :
  forall s, istartswith x (PyStr.upper s) = istartswith x s.
Proof.
  induction x as [|a x IH]; intros [|c s]; cbn [istartswith PyStr.upper];
    try reflexivity.
  now rewrite lower_upper_char, IH.
Qed.

Lemma icontains_upper (x s : string) :
  icontains x (PyStr.upper s) = icontains x s.
Proof.
  induction s as [|c s IH].
  - reflexivity.
  - change (PyStr.upper (String c s))
      with (String (PyStr.upper_char c) (PyStr.upper s)).
    cbn [icontains]. rewrite IH. f_equal.
    exact (istartswith_upper x (String c s)).
Qed.

(** X19. A debit whose description mentions KABBAGE or ONDECK, in any
    letter case and anywhere in the text, is flagged as an MCA payment
    and gets a lender name; its category is MCA_PAYMENT unless the NSF
    condition holds. *)
Theorem named_lender_is_mca (t : Transaction) :
  transaction_type t = DEBIT ->
  icontains "KABBAGE" (description t) || icontains "ONDECK" (description t)
  = true ->
  is_mca_payment (classify_transaction t) = true /\
  (exists l, mca_lender (classify_transaction t) = Some l) /\
  (~ nsf_condition t (PyStr.upper (description t)) ->
   category (classify_transaction t) = Some MCA_PAYMENT).
Proof.
  intros Hty Hany.
  assert (Hm : any_search mca_patterns (PyStr.upper (description t)) = true).
  { unfold any_search. apply existsb_exists.
    apply orb_prop in Hany. destruct Hany as [H|H];
      rewrite <- icontains_upper in H; destruct (search_word _ _ H) as (r & Hr).
    - exists (seq [dotstar; lit "KABBAGE"; dotstar]). split.
      + unfold mca_patterns. do 6 right. now left.
      + now rewrite Hr.
    - exists (seq [dotstar; lit "ONDECK"; dotstar]). split.
      + unfold mca_patterns. do 7 right. now left.
      + now rewrite Hr. }
  destruct (extract_lender_name_some _ Hm) as (l & Hl).
  rewrite ClassifierFacts.classify_unfold, ClassifierFacts.branch_nsf.
  unfold branch, _classify_debit. rewrite Hty, Hm.
  destruct (_is_nsf_transaction t _) eqn:En; cbn.
  - split; [reflexivity|]. split; [eauto|]. intros Hn.
    apply ClassifierSpec.is_nsf_true in En. contradiction.
  - split; [reflexivity|]. split; [eauto|]. reflexivity.
Qed.

Lemma named_lender_is_mca_witness :
  is_mca_payment
    (classify_transaction (Samples.raw DEBIT "ACH OnDeck Capital" (-1) 1))
  = true.
Proof.
  apply (named_lender_is_mca (Samples.raw DEBIT "ACH OnDeck Capital" (-1) 1));
    reflexivity.
Defined.

End LenderFacts.

(* ================================================================== *)
(** ** The lender name has no white space at its ends *)
(* ================================================================== *)

Module LenderTrim.

Import Re TransactionClassifier ReFacts Notions.

Lemma rstrip_cons (c : ascii) (s : string) :
  PyStr.rstrip (String c s)
  = match PyStr.rstrip s with
    | EmptyString =>
        if PyStr.isspace c then EmptyString else String c EmptyString
    | String c' r => String c (String c' r)
    end.
Proof. reflexivity. Qed.

Lemma rstrip_idem (s : string) : PyStr.rstrip (PyStr.rstrip s) = PyStr.rstrip s.
Proof.
  induction s as [|c s IH]; [reflexivity|]. rewrite rstrip_cons.
  destruct (PyStr.rstrip s) as [|c' r] eqn:E.
  - destruct (PyStr.isspace c) eqn:Ec; [reflexivity|].
    rewrite rstrip_cons. cbn [PyStr.rstrip]. now rewrite Ec.
  - rewrite rstrip_cons, IH. reflexivity.
Qed.

Lemma lstrip_head (s : string) :
  PyStr.lstrip s = EmptyString \/
  exists c u, PyStr.lstrip s = String c u /\ PyStr.isspace c = false.
Proof.
  induction s as [|c s IH]; [now left|]. cbn [PyStr.lstrip].
  destruct (PyStr.isspace c) eqn:Ec; [exact IH|]. right. eauto.
Qed.

Lemma rstrip_head (c : ascii) (u : string) :
  PyStr.isspace c = false -> exists r, PyStr.rstrip (String c u) = String c r.
Proof.
  intros Hc. rewrite rstrip_cons. destruct (PyStr.rstrip u); [|eauto].
  rewrite Hc. eauto.
Qed.

Lemma lstrip_visible_head (c : ascii) (u : string) :
  PyStr.isspace c = false -> PyStr.lstrip (String c u) = String c u.
Proof. intros Hc. cbn [PyStr.lstrip]. now rewrite Hc. Qed.

(** [strip()] leaves nothing to strip. *)
Lemma strip_trimmed (s : string) : trimmed (PyStr.strip s).
Proof.
  unfold trimmed, PyStr.strip. split; [|apply rstrip_idem].
  destruct (lstrip_head s) as [->|(c & u & -> & Hc)]; [reflexivity|].
  destruct (rstrip_head c u Hc) as (r & ->). now apply lstrip_visible_head.
Qed.

Lemma rstrip_visible (w : string) :
  (forall c, occurs c w -> PyStr.isspace c = false) -> PyStr.rstrip w = w.
Proof.
  induction w as [|c w IH]; intros H; [reflexivity|]. rewrite rstrip_cons.
  rewrite IH by (intros c' Hc'; apply H; now right).
  destruct w; [|reflexivity]. rewrite (H c) by now left. reflexivity.
Qed.

Lemma rstrip_app (a b : string) :
  PyStr.rstrip b <> EmptyString ->
  PyStr.rstrip (a ++ b) = a ++ PyStr.rstrip b.
Proof.
  intros Hb. induction a as [|c a IH]; [reflexivity|].
  cbn [append]. rewrite rstrip_cons, IH.
  destruct (a ++ PyStr.rstrip b) eqn:E; [|reflexivity].
  destruct a; [cbn in E; congruence | discriminate].
Qed.

Lemma occurs_of_list (l : list ascii) (c : ascii) :
  occurs c (string_of_list_ascii l) <-> In c l.
Proof.
  induction l as [|x l IH]; cbn; [tauto|]. now rewrite IH.
Qed.

(** The words of [split()] are not empty and hold no white space. *)
Lemma split_aux_words (s : string) :
  forall word,
    (forall c, In c word -> PyStr.isspace c = false) ->
    forall w, In w (PyStr.split_aux word s) ->
              w <> EmptyString /\
              forall c, occurs c w -> PyStr.isspace c = false.
Proof.
  assert (Hflush : forall word,
            (forall c, In c word -> PyStr.isspace c = false) ->
            forall w,
              In w (match word with
                    | [] => []
                    | _ :: _ => [string_of_list_ascii (rev word)]
                    end) ->
              w <> EmptyString /\
              forall c, occurs c w -> PyStr.isspace c = false).
  { intros word Hw w Hin. destruct word as [|x word]; [destruct Hin|].
    destruct Hin as [<-|[]]. split.
    - cbn [rev]. destruct (rev word); discriminate.
    - intros c Hc. apply occurs_of_list in Hc. apply in_rev in Hc.
      now apply Hw. }
  induction s as [|c s IH]; intros word Hw w Hin; cbn [PyStr.split_aux] in Hin.
  - now apply (Hflush word).
  - destruct (PyStr.isspace c) eqn:Ec.
    + apply in_app_or in Hin. destruct Hin as [Hin|Hin].
      * now apply (Hflush word).
      * apply (IH []); [intros c' []|exact Hin].
    + apply (IH (c :: word)); [|exact Hin].
      intros c' [<-|Hc']; [exact Ec | now apply Hw].
Qed.

(** Words joined by single spaces have a visible character at each
    end. *)
Lemma join_trimmed (words : list string) :
  words <> [] ->
  (forall w, In w words ->
             w <> EmptyString /\
             forall c, occurs c w -> PyStr.isspace c = false) ->
  PyStr.join " " words <> EmptyString /\ trimmed (PyStr.join " " words).
Proof.
  induction words as [|w words IH]; intros Hne Hw; [congruence|].
  destruct (Hw w (or_introl eq_refl)) as [Hwne Hwv].
  destruct w as [|c w']; [congruence|].
  assert (Hc : PyStr.isspace c = false) by (apply Hwv; now left).
  destruct words as [|w2 words].
  - cbn [PyStr.join]. split; [discriminate|]. split.
    + now apply lstrip_visible_head.
    + now apply rstrip_visible.
  - assert (Hne2 : w2 :: words <> []) by discriminate.
    destruct (IH Hne2 (fun x Hx => Hw x (or_intror Hx))) as [Hj [_ Hr]].
    change (PyStr.join " " (String c w' :: w2 :: words))
      with (String c w' ++ " " ++ PyStr.join " " (w2 :: words)).
    split; [discriminate|]. split.
    + cbn [append]. now apply lstrip_visible_head.
    + assert (H1 : PyStr.rstrip (" " ++ PyStr.join " " (w2 :: words))
                   = " " ++ PyStr.join " " (w2 :: words)).
      { rewrite rstrip_app; now rewrite Hr. }
      rewrite rstrip_app; rewrite H1; [reflexivity | discriminate].
Qed.

Lemma first_capture_stripped (table : list pattern) (description l : string) :
  first_capture table description = Some (Some l) ->
  exists g, l = PyStr.strip g.
Proof.
  induction table as [|p table IH]; cbn [first_capture]; [discriminate|].
  destruct (search p description) as [[g|]|]; cbn [option_map].
  - intros [= <-]. eauto.
  - discriminate.
  - exact IH.
Qed.

(** X20. A lender name that the extraction returns never starts or ends
    with white space, whether it comes from a capture or from the first
    words of the description. *)
Theorem extract_lender_name_trimmed (description l : string) :
  _extract_lender_name description = Some l -> trimmed l.
Proof.
  unfold _extract_lender_name.
  destruct (first_capture lender_patterns description) as [r|] eqn:E.
  - intros ->. apply first_capture_stripped in E. destruct E as (g & ->).
    apply strip_trimmed.
  - destruct (firstn 3 (PyStr.split description)) as [|w ws] eqn:Ew;
      [discriminate|].
    intros [= <-].
    refine (proj2 (@join_trimmed (w :: ws) _ _)); [discriminate|].
    intros x Hx. rewrite <- Ew in Hx.
    apply (split_aux_words description []); [intros c []|].
    change (In x (PyStr.split description)).
    rewrite <- (firstn_skipn 3 (PyStr.split description)).
    apply in_or_app. now left.
Qed.

Lemma extract_lender_name_trimmed_witness :
  trimmed "ACME LENDING LLC".
Proof.
  apply (extract_lender_name_trimmed "  ACME  LENDING LLC   DAILY " ).
  reflexivity.
Defined.

End LenderTrim.

(* ================================================================== *)
(** ** Classification, the score and the confidence together *)
(* ================================================================== *)

Module CrossFacts.

Import PyNum FraudDetector FraudSpec FraudFacts MoneyThumbSystem
       ConfidenceSpec.

Lemma existsb_same (A : Type) (p q : A -> bool) (l : list A) :
  (forall x, p x = q x) -> existsb p l = existsb q l.
Proof.
  intros H. induction l as [|x l IH]; [reflexivity|].
  cbn [existsb]. now rewrite H, IH.
Qed.

Section Relabel.

(** A change of the transactions that keeps direction, amount and date. *)
Variable f : Transaction -> Transaction.
Hypothesis f_type : forall t, transaction_type (f t) = transaction_type t.
Hypothesis f_amount : forall t, amount (f t) = amount t.
Hypothesis f_date : forall t, date (f t) = date t.

Lemma credits_of_map (txs : list Transaction) :
  credits_of (map f txs) = map f (credits_of txs).
Proof.
  induction txs as [|t txs IH]; [reflexivity|].
  cbn [map]. rewrite !credits_of_cons. unfold is_credit. rewrite f_type.
  destruct (transaction_type t); cbn [map]; now rewrite IH.
Qed.

Lemma count_map (p : Transaction -> bool) (l : list Transaction) :
  (forall t, p (f t) = p t) -> count p (map f l) = count p l.
Proof.
  intros Hp. unfold count. f_equal.
  induction l as [|t l IH]; [reflexivity|]. cbn [map filter].
  rewrite Hp. destruct (p t); cbn [List.length]; now rewrite IH.
Qed.

Lemma len_map (l : list Transaction) : len (map f l) = len l.
Proof. unfold len. now rewrite length_map. Qed.

Lemma amounts_map (l : list Transaction) :
  map amount (map f l) = map amount l.
Proof. rewrite map_map. apply map_ext. exact f_amount. Qed.

Lemma checks_map (txs : list Transaction) :
  binary64_round_check (map f txs) = binary64_round_check txs /\
  identical_check (map f txs) = identical_check txs /\
  timing_check (map f txs) = timing_check txs /\
  binary64_pattern_check float_sum (map f txs) = binary64_pattern_check float_sum txs.
Proof.
  unfold binary64_round_check, identical_check, timing_check,
    binary64_pattern_check.
  rewrite !credits_of_map, !len_map, !amounts_map.
  repeat split.
  - rewrite count_map; [reflexivity|].
    intros t. unfold float_remainder_100_is_zero. now rewrite f_amount.
  - rewrite count_map; [reflexivity|].
    intros t. unfold on_weekend. now rewrite f_date.
  - f_equal. unfold binary64_mean. rewrite len_map, map_map.
    rewrite existsb_map.
    rewrite (map_ext (fun x => float_of_Decimal (amount (f x)))
                     (fun t => float_of_Decimal (amount t)))
      by (intros t; now rewrite f_amount).
    apply existsb_same. intros t. now rewrite f_amount.
Qed.

Lemma score_map (txs : list Transaction) :
  calculate_thumbprint_score (map f txs) = calculate_thumbprint_score txs.
Proof.
  rewrite !FraudMore.score_by_checks.
  destruct (checks_map txs) as (-> & -> & -> & ->). reflexivity.
Qed.

End Relabel.

(** X21. Classification does not move the fraud score: the score and
    the factors of the classified transactions, which the controller
    computes, are those of the raw transactions. *)
Theorem score_unchanged_by_classification (raw : list Transaction) :
  calculate_thumbprint_score
    (map TransactionClassifier.classify_transaction raw)
  = calculate_thumbprint_score raw.
Proof.
  apply score_map; intros t; apply (ClassifierFacts.classify_input_fields t).
Qed.

Lemma credit_categories (raw : list Transaction) :
  (forall t, In t raw -> transaction_type t = CREDIT) ->
  incl (categories_present
          (map TransactionClassifier.classify_transaction raw))
       [TRUE_REVENUE; NON_TRUE_REVENUE].
Proof.
  intros Hc c Hin. unfold categories_present in Hin.
  apply in_flat_map in Hin. destruct Hin as (t & Ht & Hin).
  apply in_map_iff in Ht. destruct Ht as (r & <- & Hr).
  rewrite ClassifierMore.classify_category_cases in Hin.
  rewrite (ClassifierMore.branch_credit_category r (Hc r Hr)) in Hin.
  destruct (TransactionClassifier._is_nsf_transaction r _).
  - destruct Hin as [<-|[]]. cbn. tauto.
  - destruct (TransactionClassifier.any_in _ _);
      destruct Hin as [<-|[]]; cbn; tauto.
Qed.

(** X22. A statement of credits only never earns the variety bonus:
    its classified transactions show at most two categories, and the
    final confidence is the clamped base confidence less the fraud and
    the small-statement penalties. *)
Theorem credits_only_no_variety_bonus (base : float)
        (raw : list Transaction) (score : Z) :
  (forall t, In t raw -> transaction_type t = CREDIT) ->
  let classified := map TransactionClassifier.classify_transaction raw in
  (len (transaction_types classified) <= 2)%Z /\
  _calculate_final_confidence base classified score
  = max2 0 (min2 1
      (let after_fraud :=
         if (500 <? score)%Z then (base - 0.3)%float
         else if (200 <? score)%Z then (base - 0.1)%float else base in
       if (len raw <? 20)%Z then (after_fraud - 0.2)%float else after_fraud)).
Proof.
  intros Hc. cbv zeta.
  assert (Hle : (len (transaction_types
                        (map TransactionClassifier.classify_transaction raw))
                 <= 2)%Z).
  { unfold len, transaction_types.
    change 2%Z with (Z.of_nat (List.length [TRUE_REVENUE; NON_TRUE_REVENUE])).
    apply Nat2Z.inj_le. apply NoDup_incl_length; [apply NoDup_nodup|].
    intros c Hin. apply nodup_In in Hin. now apply (credit_categories raw Hc). }
  split; [exact Hle|].
  unfold _calculate_final_confidence.
  destruct (Z.leb_spec 3 (len (transaction_types
             (map TransactionClassifier.classify_transaction raw)))); [lia|].
  unfold len at 1. rewrite length_map. reflexivity.
Qed.

Lemma credits_only_no_variety_bonus_witness :
  (len (transaction_types
          (map TransactionClassifier.classify_transaction
               Samples.scenario4)) <= 2)%Z.
Proof.
  apply (credits_only_no_variety_bonus 0.9 Samples.scenario4 350).
  intros t Hin. cbn in Hin.
  repeat (destruct Hin as [<-|Hin]; [reflexivity|]). destruct Hin.
Defined.

End CrossFacts.
